(** * BMP180 sensor driver: measurement protocol and calibration conversion

    Shallow embedding of the Go package [bmp180] (sensor core, the arithmetic
    of [calc.go] and the emulated I2C device of package [stub]).

    - Go's fixed-width integers are [Z] with the wrap-around written out.
    - Go's [float64] is Rocq's primitive binary64 float; every operation is
      rounded on its own (no fused multiply-add), as on amd64.
    - The [Device] interface is a type class over the device's state, which
      is threaded explicitly through every bus access.
    - The busy-bit polling loop of [readRawPressure] has no bound in the
      source, so it is run on fuel; running out of fuel is an outcome of its
      own and never confused with a returned value or a returned error. *)

From Stdlib Require Import ZArith List Bool Lia String.
From Stdlib Require Import Floats Uint63.
Import ListNotations.

Local Open Scope Z_scope.

(** ** Fixed-width integers *)

Module Fixed.

Definition byte := Z.

Definition wrap8 (z : Z) : Z := z mod 256.
Definition wrap16 (z : Z) : Z := z mod 65536.

Definition is_u8 (z : Z) : Prop := 0 <= z < 256.
Definition is_u16 (z : Z) : Prop := 0 <= z < 65536.
Definition is_i16 (z : Z) : Prop := -32768 <= z < 32768.

(** uint8 addition and left shift, as Go computes them on [uint8]. *)
Definition add8 (a b : Z) : Z := wrap8 (a + b).
Definition shl8 (a : Z) (n : Z) : Z := wrap8 (Z.shiftl a n).

(** uint16 addition and left shift. *)
Definition add16 (a b : Z) : Z := wrap16 (a + b).
Definition shl16 (a : Z) (n : Z) : Z := wrap16 (Z.shiftl a n).

(** [float64(x)] for an integer of at most 16 bits: exact. *)
Definition float64 (z : Z) : float :=
  if z <? 0 then PrimFloat.opp (PrimFloat.of_uint63 (Uint63.of_Z (- z)))
  else PrimFloat.of_uint63 (Uint63.of_Z z).

End Fixed.
Import Fixed.

(** ** Data model (sensor.go) *)

Record calibration : Type := mkCalibration {
  ac1 : Z; ac2 : Z; ac3 : Z;          (* int16 *)
  ac4 : Z; ac5 : Z; ac6 : Z;          (* uint16 *)
  b1 : Z; b2 : Z; mb : Z; mc : Z; md : Z   (* int16 *)
}.

(** The zero value of the struct, as [new(Sensor)] leaves it. *)
Definition calibration_zero : calibration :=
  mkCalibration 0 0 0 0 0 0 0 0 0 0 0.

Record constants : Type := mkConstants {
  c5 : float; c6 : float;
  k_mc : float; k_md : float;
  x0 : float; x1 : float; x2 : float;
  y0 : float; y1 : float; y2 : float;
  p0 : float; p1 : float; p2 : float
}.

(** ** calc.go *)

Module Calc.

Local Open Scope float_scope.

(** [math.Pow(2, n)] for a negative integer [n]: the power of two itself,
    which binary64 holds exactly; computed by halving. *)
Fixpoint pow2_neg (n : nat) : float :=
  match n with
  | O => 1
  | S k => pow2_neg k / 2
  end.

(** The constant [0.001]: Go converts the literal to the nearest binary64
    value, written here in hexadecimal so that nothing is rounded silently. *)
Definition milli : float := 0x1.0624dd2f1a9fcp-10.

Definition calcConstants (calib : calibration) : constants :=
  let v_c5 := pow2_neg 15 / 160 * float64 (ac5 calib) in
  let v_c6 := float64 (ac6 calib) in
  let v_mc := 2048 / (160 * 160) * float64 (mc calib) in
  let v_md := float64 (md calib) / 160 in
  let c3 := 160 * pow2_neg 15 * float64 (ac3 calib) in
  let c4 := milli * pow2_neg 15 * float64 (ac4 calib) in
  let b1' := 160 * 160 * pow2_neg 30 * float64 (b1 calib) in
  let v_x0 := float64 (ac1 calib) in
  let v_x1 := 160 * pow2_neg 13 * float64 (ac2 calib) in
  let v_x2 := 160 * 160 * pow2_neg 25 * float64 (b2 calib) in
  let v_y0 := c4 * 32768 in
  let v_y1 := c4 * c3 in
  let v_y2 := c4 * b1' in
  let v_p0 := (3791 - 8) / 1600 in
  let v_p1 := 1 - 7357 * pow2_neg 20 in
  let v_p2 := 3038 * 100 * pow2_neg 36 in
  mkConstants v_c5 v_c6 v_mc v_md v_x0 v_x1 v_x2 v_y0 v_y1 v_y2 v_p0 v_p1 v_p2.

Definition calcTempCelsius (tu : Z) (cnsts : constants) : float :=
  let alpha := c5 cnsts * (float64 tu - c6 cnsts) in
  let t := alpha + (k_mc cnsts / (alpha + k_md cnsts)) in
  t.

Definition calcPressurePascal (tempCelsius : float) (msb lsb xlsb : byte)
    (cnsts : constants) : float :=
  let s := tempCelsius - 25 in
  let x := x2 cnsts * s * s + x1 cnsts * s + x0 cnsts in
  let y := y2 cnsts * s * s + y1 cnsts * s + y0 cnsts in
  let msbInt := wrap8 msb in
  let lsbInt := wrap8 lsb in
  let xlsbInt := wrap8 xlsb in
  let pu := float64 msbInt * 256 + float64 lsbInt + float64 xlsbInt / 256 in
  let z := (pu - x) / y in
  let p := p2 cnsts * z * z + p1 cnsts * z + p0 cnsts in
  p.

End Calc.

(** ** The bus capability (sensor.go, [Device]) *)

(** A Go [error] value, by its message; [None] is [nil]. *)
Definition error : Type := string.

(** [buf] after a callee has written [out] at its start: the caller's slice
    keeps its length whatever the callee does, and holds bytes. *)
Definition into (buf out : list byte) : list byte :=
  map wrap8 (firstn (List.length buf) out) ++ skipn (List.length out) buf.

(** [make([]byte, n)] *)
Definition make (n : nat) : list byte := repeat 0 n.

(** [buf[i]] *)
Definition at_ (buf : list byte) (i : nat) : byte := nth i buf 0.

(** [buf[lo:hi]] *)
Definition slice (buf : list byte) (lo hi : nat) : list byte :=
  firstn (hi - lo) (skipn lo buf).

Class Device (D : Type) : Type := {
  Close : D -> D * option error;
  Read : D -> list byte -> D * list byte * option error;
  ReadReg : D -> byte -> list byte -> D * list byte * option error;
  Write : D -> list byte -> D * option error;
  WriteReg : D -> byte -> list byte -> D * option error
}.

Definition regID : byte := 0xD0.
Definition regControl : byte := 0xF4.
Definition regTempOrPressure : byte := 0xF6.
Definition cmdReadTemp : byte := 0x2E.
Definition cmdReadPressure : byte := 0x34.
Definition regCalibration : byte := 0xAA.
Definition calibrationNumWords : nat := 22.

Record Sensor (D : Type) : Type := mkSensor {
  dev : D;
  calib : calibration;
  cnsts : constants;
  tempCelsius : float
}.
Arguments mkSensor {D}.
Arguments dev {D}.
Arguments calib {D}.
Arguments cnsts {D}.
Arguments tempCelsius {D}.

Definition set_dev {D} (s : Sensor D) (d : D) : Sensor D :=
  mkSensor d (calib s) (cnsts s) (tempCelsius s).
Definition set_calib {D} (s : Sensor D) (c : calibration) : Sensor D :=
  mkSensor (dev s) c (cnsts s) (tempCelsius s).
Definition set_cnsts {D} (s : Sensor D) (k : constants) : Sensor D :=
  mkSensor (dev s) (calib s) k (tempCelsius s).
Definition set_tempCelsius {D} (s : Sensor D) (t : float) : Sensor D :=
  mkSensor (dev s) (calib s) (cnsts s) t.

(** [binary.Read(buf, binary.BigEndian, &ret)] into an [int16] and into a
    [uint16], on the two bytes it is given. *)
Definition readUint16 (data : list byte) : Z :=
  at_ data 0 * 256 + at_ data 1.

Definition readInt16 (data : list byte) : Z :=
  let u := readUint16 data in
  if 32768 <=? u then u - 65536 else u.

(** The bit test of the polling loop, [buf[0]&0x20 > 0]. *)
Definition sco (buf : list byte) : bool := 0 <? Z.land (at_ buf 0) 0x20.

(** The command byte of a pressure conversion, [cmdReadPressure + (oss << 6)]
    on [uint8]. *)
Definition pressureCmd (oss : Z) : byte := add8 cmdReadPressure (shl8 oss 6).

(** The datasheet's conversion time in microseconds; [time.Sleep] has no
    effect on any value of the program. *)
Definition delay (oss : Z) : Z :=
  if oss =? 0 then 4500 else if oss =? 1 then 7500
  else if oss =? 2 then 13500 else if oss =? 3 then 25500 else 0.

(** The eleven assignments of [readCalibration], from the 22 bytes read. *)
Definition decodeCalibration (buf : list byte) : calibration :=
  mkCalibration
    (readInt16 (slice buf 0 2)) (readInt16 (slice buf 2 4))
    (readInt16 (slice buf 4 6))
    (readUint16 (slice buf 6 8)) (readUint16 (slice buf 8 10))
    (readUint16 (slice buf 10 12))
    (readInt16 (slice buf 12 14)) (readInt16 (slice buf 14 16))
    (readInt16 (slice buf 16 18)) (readInt16 (slice buf 18 20))
    (readInt16 (slice buf 20 22)).

Section SensorOps.

Context {D : Type} `{Device D}.

(** [math.Pow] at an exponent that is not an integer, used by the sea-level
    formula only; a library function outside this package. *)
Variable math_Pow : float -> float -> float.

(** The constant [5.255], as the nearest binary64 value. *)
Definition exponent : float := 0x1.5051eb851eb85p+2.

Definition calcPressurePascalSealevel (p altitudeMeters : float) : float :=
  (p / math_Pow (1 - altitudeMeters / 44330) exponent)%float.

Definition readCalibration (s : Sensor D) : Sensor D * option error :=
  let buf := make calibrationNumWords in
  let '(d, out, err) := ReadReg (dev s) regCalibration buf in
  let buf := into buf out in
  let s := set_dev s d in
  match err with
  | Some e => (s, Some e)
  | None => (set_calib s (decodeCalibration buf), None)
  end.

(** [new(Sensor)] with the device set. *)
Definition newSensor (device : D) : Sensor D :=
  mkSensor device calibration_zero
    (mkConstants 0 0 0 0 0 0 0 0 0 0 0 0 0) 0%float.

(** [NewSensor] has a single result; what [readCalibration] returns is
    dropped. *)
Definition NewSensor (device : D) : Sensor D :=
  let s := newSensor device in
  let '(s, _) := readCalibration s in
  set_cnsts s (Calc.calcConstants (calib s)).

Definition ID (s : Sensor D) : Sensor D * (byte * option error) :=
  let buf := make 1 in
  let '(d, out, err) := ReadReg (dev s) regID buf in
  let buf := into buf out in
  let s := set_dev s d in
  match err with
  | Some e => (s, (0, Some e))
  | None => (s, (at_ buf 0, None))
  end.

Definition readRawTemp (s : Sensor D) : Sensor D * (Z * option error) :=
  let '(d, err) := WriteReg (dev s) regControl [cmdReadTemp] in
  let buf := make 2 in
  let '(d, out, err) := ReadReg d regTempOrPressure buf in
  let buf := into buf out in
  let s := set_dev s d in
  match err with
  | Some e => (s, (0, Some e))
  | None => (s, (add16 (shl16 (at_ buf 0) 8) (at_ buf 1), None))
  end.

Definition Temperature (s : Sensor D) : Sensor D * (float * option error) :=
  let '(s, (tu, err)) := readRawTemp s in
  match err with
  | Some e => (s, (0%float, Some e))
  | None =>
      let t := Calc.calcTempCelsius tu (cnsts s) in
      (set_tempCelsius s t, (t, None))
  end.

(** The loop [for buf[0]&0x20 > 0 { err = ReadReg(regControl, buf); ... }].
    One unit of fuel pays for one iteration; [None] says the loop was still
    running when the fuel ran out. *)
Fixpoint poll (fuel : nat) (d : D) (buf : list byte)
  : D * option (list byte * option error) :=
  if sco buf then
    match fuel with
    | O => (d, None)
    | S fuel' =>
        let '(d, out, err) := ReadReg d regControl buf in
        let buf := into buf out in
        match err with
        | Some e => (d, Some (buf, Some e))
        | None => poll fuel' d buf
        end
    end
  else (d, Some (buf, None)).

Definition readRawPressure (fuel : nat) (s : Sensor D) (oss : Z)
  : Sensor D * option (byte * byte * byte * option error) :=
  let cmd := pressureCmd oss in
  let '(d, err) := WriteReg (dev s) regControl [cmd] in
  match err with
  | Some e => (set_dev s d, Some (0, 0, 0, Some e))
  | None =>
      let buf := make 5 in
      let '(d, out, err) := ReadReg d regControl buf in
      let buf := into buf out in
      match err with
      | Some e => (set_dev s d, Some (0, 0, 0, Some e))
      | None =>
          let '(d, r) := poll fuel d buf in
          match r with
          | None => (set_dev s d, None)
          | Some (buf, Some e) => (set_dev s d, Some (0, 0, 0, Some e))
          | Some (buf, None) =>
              (set_dev s d, Some (at_ buf 2, at_ buf 3, at_ buf 4, None))
          end
      end
  end.

Definition Pressure (fuel : nat) (s : Sensor D) (oss : Z)
  : Sensor D * option (float * option error) :=
  let '(s, r) := readRawPressure fuel s oss in
  match r with
  | None => (s, None)
  | Some (msb, lsb, xlsb, Some e) => (s, Some (0%float, Some e))
  | Some (msb, lsb, xlsb, None) =>
      (s, Some (Calc.calcPressurePascal (tempCelsius s) msb lsb xlsb (cnsts s),
                None))
  end.

Definition PressureSealevel (fuel : nat) (s : Sensor D) (oss : Z)
    (altitudeMeters : float) : Sensor D * option (float * option error) :=
  let '(s, r) := Pressure fuel s oss in
  match r with
  | None => (s, None)
  | Some (p, Some e) => (s, Some (0%float, Some e))
  | Some (p, None) => (s, Some (calcPressurePascalSealevel p altitudeMeters, None))
  end.

End SensorOps.

(** ** The emulated device (package stub) *)

Module Stub.

Record BMP180StubDevice : Type := mkStub {
  numMeasurements : Z;
  memory : list byte;
  memPointer : Z;
  (** not a field of the Go struct: the raw temperature [rawvalInt] that the
      wall clock and the random source yield at a given measurement count *)
  ambient : Z -> Z
}.

(** [copy(mem[off:], data)] *)
Definition copyAt (mem : list byte) (off : Z) (data : list byte) : list byte :=
  firstn (Z.to_nat off) mem ++ into (skipn (Z.to_nat off) mem) data.

(** [mem[i] &^= mask] *)
Definition clearBits (mem : list byte) (i : Z) (mask : Z) : list byte :=
  firstn (Z.to_nat i) mem
  ++ match skipn (Z.to_nat i) mem with
     | [] => []
     | v :: rest => Z.ldiff v mask :: rest
     end.

Definition calibrationBytes : list byte :=
  [0x1e; 0xe7; 0xfc; 0x5a; 0xc8; 0x1e; 0x7b; 0x4f; 0x64; 0x47; 0x4a; 0x1e;
   0x15; 0x7a; 0x00; 0x2e; 0x80; 0x00; 0xd4; 0xbd; 0x09; 0x80].

Definition Open (clock : Z -> Z) : BMP180StubDevice :=
  let mem := make (Z.to_nat 0xff) in
  let mem := copyAt mem regID [0x55] in
  let mem := copyAt mem regCalibration calibrationBytes in
  mkStub 0 mem 0 clock.

Definition stubReadReg (d : BMP180StubDevice) (reg : byte) (buf : list byte)
  : BMP180StubDevice * list byte * option error :=
  let src := skipn (Z.to_nat reg) (memory d) in
  let n := Z.of_nat (Nat.min (List.length buf) (List.length src)) in
  (mkStub (numMeasurements d) (memory d) (reg + n) (ambient d), src, None).

(** [binary.Write(buf, binary.BigEndian, rawvalInt)] for an [int16]. *)
Definition int16Bytes (v : Z) : list byte :=
  let u := wrap16 v in [u / 256; u mod 256].

Definition stubWriteReg (d : BMP180StubDevice) (reg : byte) (buf : list byte)
  : BMP180StubDevice * option error :=
  let dst := skipn (Z.to_nat reg) (memory d) in
  let n := Z.of_nat (Nat.min (List.length dst) (List.length buf)) in
  let mem := copyAt (memory d) reg buf in
  if reg =? regControl then
    let num := numMeasurements d + 1 in
    let c := at_ buf 0 in
    let mem :=
      if c =? cmdReadTemp then
        let ret := if num <? 4 then [0x69; 0xEC] else int16Bytes (ambient d num) in
        copyAt mem regTempOrPressure ret
      else if (c =? 0x34) || (c =? 0x74) || (c =? 0xb4) then
        copyAt mem regTempOrPressure [0x98; 0x2F]
      else if c =? 0xf4 then
        copyAt mem regTempOrPressure [0x98; 0x2F; 0xC0]
      else mem in
    let mem := clearBits mem regControl 0x20 in
    (mkStub num mem (reg + n) (ambient d), None)
  else (mkStub (numMeasurements d) mem (reg + n) (ambient d), None).

#[global] Instance stubDevice : Device BMP180StubDevice := {
  Close d := (d, None);
  Read d buf :=
    let '(d, out, _) := stubReadReg d (wrap8 (memPointer d)) buf in
    (d, out, None);
  ReadReg := stubReadReg;
  Write d buf :=
    let '(d, _) := stubWriteReg d (wrap8 (memPointer d)) buf in (d, None);
  WriteReg := stubWriteReg
}.

End Stub.

(** ** Devices that misbehave

    Implementations of [Device] that a caller may hand to [NewSensor]: a chip
    whose conversion never completes, and buses whose transfers fail. *)

Module Faults.



(** Every write fails and changes nothing on the chip; reads go through. *)
Record FailWrites (D : Type) : Type := failWrites { fw_inner : D }.
Arguments failWrites {D}.
Arguments fw_inner {D}.

#[global] Instance failWritesDevice {D} `{Device D} : Device (FailWrites D) := {
  Close d := let '(i, e) := Close (fw_inner d) in (failWrites i, e);
  Read d buf := let '(i, out, e) := Read (fw_inner d) buf in (failWrites i, out, e);
  ReadReg d reg buf :=
    let '(i, out, e) := ReadReg (fw_inner d) reg buf in (failWrites i, out, e);
  Write d buf := (d, Some "write: input/output error"%string);
  WriteReg d reg buf := (d, Some "write: input/output error"%string)
}.

(** Every read fails and leaves the buffer alone; writes go through. *)
Record FailReads (D : Type) : Type := failReads { fr_inner : D }.
Arguments failReads {D}.
Arguments fr_inner {D}.

#[global] Instance failReadsDevice {D} `{Device D} : Device (FailReads D) := {
  Close d := let '(i, e) := Close (fr_inner d) in (failReads i, e);
  Read d buf := (d, [], Some "read: input/output error"%string);
  ReadReg d reg buf := (d, [], Some "read: input/output error"%string);
  Write d buf := let '(i, e) := Write (fr_inner d) buf in (failReads i, e);
  WriteReg d reg buf :=
    let '(i, e) := WriteReg (fr_inner d) reg buf in (failReads i, e)
}.

End Faults.

(** ** A bus monitor

    Wraps any device and records, oldest first, every register write that
    reaches the bus, whether or not the device accepts it. *)

Module Monitor.

Record Logged (D : Type) : Type := logged {
  inner : D;
  writes : list (byte * list byte)
}.
Arguments logged {D}.
Arguments inner {D}.
Arguments writes {D}.

Definition watch {D} (d : D) : Logged D := logged d [].

#[global] Instance loggedDevice {D} `{Device D} : Device (Logged D) := {
  Close d := let '(i, e) := Close (inner d) in (logged i (writes d), e);
  Read d buf :=
    let '(i, out, e) := Read (inner d) buf in (logged i (writes d), out, e);
  ReadReg d reg buf :=
    let '(i, out, e) := ReadReg (inner d) reg buf in (logged i (writes d), out, e);
  Write d buf := let '(i, e) := Write (inner d) buf in (logged i (writes d), e);
  WriteReg d reg buf :=
    let '(i, e) := WriteReg (inner d) reg buf in
    (logged i (writes d ++ [(reg, buf)]), e)
}.

End Monitor.

(** ** The formulas as the design document writes them *)

Module Formulas.

Local Open Scope float_scope.

Definition deriveConstants (c : calibration) : constants :=
  let c3 := 160 * 0x1p-15 * float64 (ac3 c) in
  let c4 := 0x1.0624dd2f1a9fcp-10 * 0x1p-15 * float64 (ac4 c) in
  let b1c := 160 * 160 * 0x1p-30 * float64 (b1 c) in
  {| c5 := 0x1p-15 / 160 * float64 (ac5 c);
     c6 := float64 (ac6 c);
     k_mc := 2048 / (160 * 160) * float64 (mc c);
     k_md := float64 (md c) / 160;
     x0 := float64 (ac1 c);
     x1 := 160 * 0x1p-13 * float64 (ac2 c);
     x2 := 160 * 160 * 0x1p-25 * float64 (b2 c);
     y0 := c4 * 32768;
     y1 := c4 * c3;
     y2 := c4 * b1c;
     p0 := (3791 - 8) / 1600;
     p1 := 1 - 7357 * 0x1p-20;
     p2 := 3038 * 100 * 0x1p-36 |}.

Definition temperatureCelsius (rawTemp : Z) (k : constants) : float :=
  let alpha := c5 k * (float64 rawTemp - c6 k) in
  alpha + k_mc k / (alpha + k_md k).

Definition pressurePascal (tempCelsius : float) (msb lsb xlsb : Z)
    (k : constants) : float :=
  let s := tempCelsius - 25 in
  let x := x2 k * s * s + x1 k * s + x0 k in
  let y := y2 k * s * s + y1 k * s + y0 k in
  let pu := float64 msb * 256 + float64 lsb + float64 xlsb / 256 in
  let z := (pu - x) / y in
  p2 k * z * z + p1 k * z + p0 k.

End Formulas.

(** ** Reading a float as an exact number *)

(** The integer nearest to [1000 * f], halves away from zero, computed on
    the exact value [m * 2^e] of [f]; [None] for infinities and NaN. *)
Definition thousandths (f : float) : option Z :=
  match Prim2SF f with
  | S754_zero _ => Some 0
  | S754_finite sign m e =>
      let num := 1000 * Z.pos m * 2 ^ Z.max e 0 in
      let den := 2 ^ Z.max (- e) 0 in
      let q := (2 * num + den) / (2 * den) in
      Some (if sign then - q else q)
  | _ => None
  end.

(** [f] is the integer [z], exactly. *)
Definition holds (f : float) (z : Z) : bool :=
  match Prim2SF f with
  | S754_zero _ => z =? 0
  | S754_finite sign m e =>
      (Z.pos m * 2 ^ Z.max e 0 =? Z.abs z * 2 ^ Z.max (- e) 0)
      && Bool.eqb sign (z <? 0)
  | _ => false
  end.

(** The calibration of the worked example of the Bosch calculation paper. *)
Definition paper_calib : calibration :=
  mkCalibration 7911 (-934) (-14306) 31567 25671 18974 5498 46 (-32768) (-11075) 2432.

(** A stub whose clock always yields the paper's raw temperature. *)
Definition bench : Stub.BMP180StubDevice := Stub.Open (fun _ => 27116).


(** ** The earlier revision of the pressure read (sensor.go, first version)

    One three-byte read of the result registers after the conversion time,
    and no look at the control register. *)

Module Rev1.

(** Conversion time in milliseconds. *)
Definition delay (oss : Z) : Z :=
  if oss =? 0 then 5 else if oss =? 1 then 8
  else if oss =? 2 then 14 else if oss =? 3 then 26 else 0.

Definition readRawPressure {D : Type} `{Device D} (s : Sensor D) (oss : Z)
  : Sensor D * (byte * byte * byte * option error) :=
  let cmd := add8 cmdReadPressure (shl8 oss 6) in
  let '(d, err) := WriteReg (dev s) regControl [cmd] in
  match err with
  | Some e => (set_dev s d, (0, 0, 0, Some e))
  | None =>
      let buf := make 3 in
      let '(d, out, err) := ReadReg d regTempOrPressure buf in
      let buf := into buf out in
      match err with
      | Some e => (set_dev s d, (0, 0, 0, Some e))
      | None => (set_dev s d, (at_ buf 0, at_ buf 1, at_ buf 2, None))
      end
  end.

End Rev1.

(** ** The first emulated device (i2c_stub.go)

    It keeps the last control byte only and panics on anything it does not
    know; [None] is the panic. *)

Module Mock.

Record MockDevice : Type := mkMock { regControl_ : byte }.

Definition Open : MockDevice := mkMock 0.

(** The buffer after the call. *)
Definition ReadReg (d : MockDevice) (reg : byte) (buf : list byte)
  : option (list byte) :=
  if reg =? 0xD0 then
    match buf with
    | [] => None
    | _ :: rest => Some (0x55 :: rest)
    end
  else if reg =? 0xAA then Some (into buf Stub.calibrationBytes)
  else if reg =? 0xF6 then
    let c := regControl_ d in
    if c =? 0x2E then Some (into buf [0x69; 0xEC])
    else if (c =? 0x34) || (c =? 0x74) || (c =? 0xb4) || (c =? 0xf4) then
      Some (into buf [0x98; 0x2F; 0xC0])
    else None
  else None.

Definition WriteReg (d : MockDevice) (reg : byte) (buf : list byte)
  : option MockDevice :=
  if reg =? 0xF4 then
    match buf with
    | [] => None
    | c :: _ => Some (mkMock c)
    end
  else Some d.

End Mock.

(** ** A full bus trace

    Wraps any device and records every call of the interface in order, with
    the register and the length or the bytes transferred. *)

Module Trace.

Inductive event : Type :=
| EvClose
| EvRead (len : nat)
| EvReadReg (reg : byte) (len : nat)
| EvWrite (data : list byte)
| EvWriteReg (reg : byte) (data : list byte).

Record Traced (D : Type) : Type := traced {
  under : D;
  events : list event
}.
Arguments traced {D}.
Arguments under {D}.
Arguments events {D}.

#[global] Instance tracedDevice {D} `{Device D} : Device (Traced D) := {
  Close d :=
    let '(i, e) := Close (under d) in (traced i (events d ++ [EvClose]), e);
  Read d buf :=
    let '(i, out, e) := Read (under d) buf in
    (traced i (events d ++ [EvRead (List.length buf)]), out, e);
  ReadReg d reg buf :=
    let '(i, out, e) := ReadReg (under d) reg buf in
    (traced i (events d ++ [EvReadReg reg (List.length buf)]), out, e);
  Write d buf :=
    let '(i, e) := Write (under d) buf in
    (traced i (events d ++ [EvWrite buf]), e);
  WriteReg d reg buf :=
    let '(i, e) := WriteReg (under d) reg buf in
    (traced i (events d ++ [EvWriteReg reg buf]), e)
}.

End Trace.

(** ** Sessions: any sequence of calls a user makes on an open sensor *)

Inductive call : Type :=
| CallID
| CallTemperature
| CallPressure (fuel : nat) (oss : Z).

Definition perform {D : Type} `{Device D} (s : Sensor D) (c : call) : Sensor D :=
  match c with
  | CallID => fst (ID s)
  | CallTemperature => fst (Temperature s)
  | CallPressure fuel oss => fst (Pressure fuel s oss)
  end.

Definition session {D : Type} `{Device D} (s : Sensor D) (cs : list call)
  : Sensor D :=
  fold_left perform cs s.

(** The 22 bytes a chip holds for a calibration, each field written as the
    emulated device writes an [int16]. *)
Definition calibrationImage (c : calibration) : list byte :=
  List.concat (map Stub.int16Bytes
            [ac1 c; ac2 c; ac3 c; ac4 c; ac5 c; ac6 c;
             b1 c; b2 c; mb c; mc c; md c]).

(** An emulated device as [Open] builds it and its operations keep it:
    255 bytes of memory. *)
Definition sized (d : Stub.BMP180StubDevice) : Prop :=
  List.length (Stub.memory d) = 255%nat.

(** Every field within the range of its Go type. *)
Definition in_range (c : calibration) : Prop :=
  is_i16 (ac1 c) /\ is_i16 (ac2 c) /\ is_i16 (ac3 c)
  /\ is_u16 (ac4 c) /\ is_u16 (ac5 c) /\ is_u16 (ac6 c)
  /\ is_i16 (b1 c) /\ is_i16 (b2 c) /\ is_i16 (mb c)
  /\ is_i16 (mc c) /\ is_i16 (md c).

(** The call returned, and without an error. *)
Definition succeeds {D : Type} `{Device D} (s : Sensor D) (c : call) : Prop :=
  match c with
  | CallID => snd (snd (ID s)) = None
  | CallTemperature => snd (snd (Temperature s)) = None
  | CallPressure fuel oss => exists p, snd (Pressure fuel s oss) = Some (p, None)
  end.

(** An emulated device whose memory below the control register is as
    [Open] set it up: identity and calibration in place. *)
Definition pristine (d : Stub.BMP180StubDevice) : Prop :=
  sized d
  /\ forall i, (i < 244)%nat ->
       at_ (Stub.memory d) i = at_ (Stub.memory (Stub.Open (fun _ => 0))) i.

(** What a [Sensor] keeps besides its bus handle is the same in [s] and
    in [s']. *)
Definition kept {D : Type} (s s' : Sensor D) : Prop :=
  calib s' = calib s /\ cnsts s' = cnsts s /\ tempCelsius s' = tempCelsius s.

(** * Properties *)

(** ** Integers and buffers *)

Lemma into_length (buf out : list byte) :
  List.length (into buf out) = List.length buf.
Proof.
  unfold into.
  rewrite length_app, length_map, length_firstn, length_skipn. lia.
Qed.

Lemma wrap8_u8 (z : Z) : is_u8 z -> wrap8 z = z.
Proof. unfold is_u8, wrap8. intros Hz. now apply Z.mod_small. Qed.

(** Two bytes always decode, and into the range of the field's type. *)
Lemma readUint16_range (data : list byte) :
  is_u8 (at_ data 0) -> is_u8 (at_ data 1) -> is_u16 (readUint16 data).
Proof. unfold is_u8, is_u16, readUint16. lia. Qed.

Lemma readInt16_range (data : list byte) :
  is_u8 (at_ data 0) -> is_u8 (at_ data 1) -> is_i16 (readInt16 data).
Proof.
  intros H0 H1. pose proof (readUint16_range data H0 H1) as Hu.
  unfold is_i16, readInt16, is_u16 in *.
  destruct (32768 <=? readUint16 data) eqn:E;
    [apply Z.leb_le in E | apply Z.leb_gt in E]; lia.
Qed.

(** [float64] is exact at the ends of the [int16] and [uint16] ranges. *)
Lemma float64_exact_ends :
  forallb (fun z => holds (float64 z) z)
          [-32768; -32767; -1; 0; 1; 255; 256; 32767; 32768; 65535] = true.
Proof. vm_compute. reflexivity. Qed.

(** ** calc.go against the documented formulas *)

Section Conversion.

Import Calc.

(** [math.Pow(2, -n)] as modelled is the power of two the formulas name. *)
Lemma pow2_neg_values :
  pow2_neg 13 = 0x1p-13%float /\ pow2_neg 15 = 0x1p-15%float /\
  pow2_neg 20 = 0x1p-20%float /\ pow2_neg 25 = 0x1p-25%float /\
  pow2_neg 30 = 0x1p-30%float /\ pow2_neg 36 = 0x1p-36%float.
Proof. repeat split; vm_compute; reflexivity. Qed.

(** Go evaluates a constant expression exactly and rounds once; for the
    constants of [calcConstants] that is what float arithmetic gives. *)
Lemma constant_expressions :
  (2048 / (160 * 160) = 0x1.47ae147ae147bp-4)%float /\
  ((3791 - 8) / 1600 = 0x1.2ea3d70a3d70ap+1)%float /\
  (1 / 1000 = milli)%float.
Proof. repeat split; vm_compute; reflexivity. Qed.

(** C4: for every constants record and every raw temperature,
    [calcTempCelsius] returns alpha + mC/(alpha + mD) with
    alpha = c5 * (rawTemp - c6), each operation in binary64. *)
Theorem C4_calcTempCelsius_formula (k : constants) (rawTemp : Z) :
  calcTempCelsius rawTemp k = Formulas.temperatureCelsius rawTemp k
  /\ calcTempCelsius rawTemp k =
     (let alpha := c5 k * (float64 rawTemp - c6 k) in
      alpha + k_mc k / (alpha + k_md k))%float.
Proof. split; reflexivity. Qed.

(** C5: for every constants record, compensating temperature and byte
    triple, [calcPressurePascal] returns p2*z*z + p1*z + p0 with
    s = t - 25, x and y the two quadratics in s, pu = msb*256 + lsb +
    xlsb/256 and z = (pu - x)/y, each operation in binary64. *)
Theorem C5_calcPressurePascal_formula (k : constants) (t : float)
    (msb lsb xlsb : Z) :
  is_u8 msb -> is_u8 lsb -> is_u8 xlsb ->
  calcPressurePascal t msb lsb xlsb k = Formulas.pressurePascal t msb lsb xlsb k.
Proof.
  intros Hm Hl Hx.
  unfold calcPressurePascal, Formulas.pressurePascal.
  rewrite !wrap8_u8 by assumption.
  reflexivity.
Qed.

Lemma C5_witness :
  calcPressurePascal 0x1.7c6c049ca4affp+4 0x98 0x2F 0xC0 (calcConstants paper_calib)
  = Formulas.pressurePascal 0x1.7c6c049ca4affp+4 0x98 0x2F 0xC0 (calcConstants paper_calib).
Proof.
  apply (C5_calcPressurePascal_formula (calcConstants paper_calib)
           0x1.7c6c049ca4affp+4 0x98 0x2F 0xC0); unfold is_u8; lia.
Defined.

(** C6: for every calibration record, [calcConstants] computes the fixed
    formulas of the constants derivation, and nothing but the calibration
    enters them: a sensor's constants are those of its calibration. *)
Theorem C6_calcConstants_formulas (c : calibration) :
  calcConstants c = Formulas.deriveConstants c
  /\ (forall (D : Type) (I : Device D) (d : D),
        cnsts (NewSensor d) = calcConstants (calib (NewSensor d))).
Proof.
  split.
  - unfold calcConstants, Formulas.deriveConstants, milli.
    destruct pow2_neg_values as (E13 & E15 & E20 & E25 & E30 & E36).
    rewrite E13, E15, E20, E25, E30, E36. reflexivity.
  - intros D I d. unfold NewSensor.
    destruct (readCalibration (newSensor d)) as [s e]. reflexivity.
Qed.

(** C7: with the calibration of the worked example and the raw temperature
    of the big-endian bytes 0x69, 0xEC, constants derivation followed by
    temperature conversion gives 23.776 at three decimal places. *)
Theorem C7_paper_temperature :
  add16 (shl16 0x69 8) 0xEC = 27116
  /\ thousandths
       (calcTempCelsius (add16 (shl16 0x69 8) 0xEC) (calcConstants paper_calib))
     = Some 23776.
Proof. split; vm_compute; reflexivity. Qed.

End Conversion.

(** ** The measurement sequencer *)

Section Sequencer.

Context {D : Type} `{Device D}.

Lemma kept_refl (s : Sensor D) : kept s s.
Proof. repeat split. Qed.

Lemma kept_set_dev (s : Sensor D) (d : D) : kept s (set_dev s d).
Proof. repeat split. Qed.

Lemma kept_trans (s1 s2 s3 : Sensor D) : kept s1 s2 -> kept s2 s3 -> kept s1 s3.
Proof.
  intros (A1 & A2 & A3) (B1 & B2 & B3).
  repeat split; congruence.
Qed.

Lemma poll_unfold (fuel : nat) (d : D) (buf : list byte) :
  poll fuel d buf =
  if sco buf then
    match fuel with
    | O => (d, None)
    | S fuel' =>
        let '(d, out, err) := ReadReg d regControl buf in
        match err with
        | Some e => (d, Some (into buf out, Some e))
        | None => poll fuel' d (into buf out)
        end
    end
  else (d, Some (buf, None)).
Proof. destruct fuel; reflexivity. Qed.

(** The error [readRawTemp] reports is the one of its read, whatever the
    write before it returned. *)
Lemma readRawTemp_error (s : Sensor D) :
  snd (snd (readRawTemp s)) =
  snd (ReadReg (fst (WriteReg (dev s) regControl [cmdReadTemp]))
         regTempOrPressure (make 2)).
Proof.
  unfold readRawTemp.
  destruct (WriteReg (dev s) regControl [cmdReadTemp]) as [d1 e1]. simpl.
  destruct (ReadReg d1 regTempOrPressure (make 2)) as [[d2 out] [e|]];
    reflexivity.
Qed.

Lemma readRawTemp_kept (s : Sensor D) : kept s (fst (readRawTemp s)).
Proof.
  unfold readRawTemp.
  destruct (WriteReg (dev s) regControl [cmdReadTemp]) as [d1 e1].
  destruct (ReadReg d1 regTempOrPressure (make 2)) as [[d2 out] [e|]];
    apply kept_set_dev.
Qed.

Lemma readRawTemp_failure_value (s : Sensor D) (e : error) :
  snd (snd (readRawTemp s)) = Some e -> fst (snd (readRawTemp s)) = 0.
Proof.
  unfold readRawTemp.
  destruct (WriteReg (dev s) regControl [cmdReadTemp]) as [d1 e1].
  destruct (ReadReg d1 regTempOrPressure (make 2)) as [[d2 out] [e'|]];
    simpl; [reflexivity | discriminate].
Qed.

Lemma readRawPressure_kept (fuel : nat) (s : Sensor D) (oss : Z) :
  kept s (fst (readRawPressure fuel s oss)).
Proof.
  unfold readRawPressure.
  destruct (WriteReg (dev s) regControl [pressureCmd oss]) as [d1 [e1|]];
    [apply kept_set_dev|].
  destruct (ReadReg d1 regControl (make 5)) as [[d2 out] [e2|]];
    [apply kept_set_dev|].
  destruct (poll fuel d2 (into (make 5) out)) as [d3 [[buf [e3|]]|]];
    apply kept_set_dev.
Qed.

Lemma Pressure_kept (fuel : nat) (s : Sensor D) (oss : Z) :
  kept s (fst (Pressure fuel s oss)).
Proof.
  unfold Pressure.
  pose proof (readRawPressure_kept fuel s oss) as K.
  destruct (readRawPressure fuel s oss) as [s' [[[[msb lsb] xlsb] [e|]]|]];
    exact K.
Qed.

Lemma PressureSealevel_kept (pow : float -> float -> float) (fuel : nat)
    (s : Sensor D) (oss : Z) (altitude : float) :
  kept s (fst (PressureSealevel pow fuel s oss altitude)).
Proof.
  unfold PressureSealevel.
  pose proof (Pressure_kept fuel s oss) as K.
  destruct (Pressure fuel s oss) as [s' [[p [e|]]|]]; exact K.
Qed.

Lemma ID_kept (s : Sensor D) : kept s (fst (ID s)).
Proof.
  unfold ID.
  destruct (ReadReg (dev s) regID (make 1)) as [[d out] [e|]];
    apply kept_set_dev.
Qed.

Lemma readCalibration_failure_kept (s : Sensor D) (e : error) :
  snd (readCalibration s) = Some e -> kept s (fst (readCalibration s)).
Proof.
  unfold readCalibration.
  destruct (ReadReg (dev s) regCalibration (make calibrationNumWords))
    as [[d out] [e'|]]; simpl.
  - intros _. apply kept_set_dev.
  - discriminate.
Qed.

(** When [readRawTemp] returns an error, [Temperature] returns that error
    and the cached temperature stays as it was; the cache is written, with
    the value returned, when [readRawTemp] came back without error.  What
    [readRawTemp] returns is the error of its read only: a failed write of
    the command is not among the failures this lemma speaks of. *)
Lemma Temperature_error_leaves_state (s : Sensor D) :
  let r := Temperature s in
  calib (fst r) = calib s /\ cnsts (fst r) = cnsts s
  /\ snd (snd r) = snd (snd (readRawTemp s))
  /\ match snd (snd r) with
     | Some _ => tempCelsius (fst r) = tempCelsius s /\ fst (snd r) = 0%float
     | None =>
         tempCelsius (fst r) = fst (snd r)
         /\ fst (snd r) =
            Calc.calcTempCelsius (fst (snd (readRawTemp s))) (cnsts s)
     end
  /\ (forall fuel oss, kept s (fst (Pressure fuel s oss)))
  /\ kept s (fst (ID s))
  /\ (forall e, snd (readCalibration s) = Some e ->
               kept s (fst (readCalibration s))).
Proof.
  cbv zeta.
  assert (Others :
    (forall fuel oss, kept s (fst (Pressure fuel s oss)))
    /\ kept s (fst (ID s))
    /\ (forall e, snd (readCalibration s) = Some e ->
                 kept s (fst (readCalibration s)))).
  { split; [intros; apply Pressure_kept|].
    split; [apply ID_kept|].
    intros e He. now apply readCalibration_failure_kept with e. }
  revert Others. unfold Temperature.
  pose proof (readRawTemp_kept s) as (K1 & K2 & K3).
  destruct (readRawTemp s) as [s' [tu [e|]]]; cbn [fst snd] in *; intros Others.
  - split; [assumption|]. split; [assumption|]. split; [reflexivity|].
    split; [split; [assumption|reflexivity]|]. exact Others.
  - split; [assumption|]. split; [assumption|]. split; [reflexivity|].
    split; [split; [reflexivity|now rewrite K2]|]. exact Others.
Qed.

End Sequencer.

(** ** What a pressure reading leaves alone *)

(** C10: for every sensor state and oversampling setting, [Pressure]
    changes neither the calibration, nor the constants, nor the cached
    temperature, whatever its outcome; nor do [PressureSealevel] and [ID].
    [Temperature] is the one operation that writes the cache. *)
Theorem C10_Pressure_frame (D : Type) (I : Device D)
    (fuel : nat) (s : Sensor D) (oss : Z) :
  kept s (fst (Pressure fuel s oss))
  /\ (forall pow altitude,
        kept s (fst (PressureSealevel pow fuel s oss altitude)))
  /\ kept s (fst (ID s))
  /\ calib (fst (Temperature s)) = calib s
  /\ cnsts (fst (Temperature s)) = cnsts s.
Proof.
  split; [apply Pressure_kept|].
  split; [intros; apply PressureSealevel_kept|].
  split; [apply ID_kept|].
  unfold Temperature.
  pose proof (readRawTemp_kept s) as (K1 & K2 & K3).
  destruct (readRawTemp s) as [s' [tu [e|]]]; cbn [fst snd] in *;
    split; assumption.
Qed.

(** ** The busy-bit loop *)

Section Polling.

Context {D : Type} `{Device D}.

(** A set of device states in which every five-byte block read of the
    control register succeeds, shows the conversion still running, and
    stays in the set. *)
Variable Busy : D -> Prop.

Hypothesis Busy_read :
  forall d buf, Busy d -> List.length buf = 5%nat ->
    exists d' out,
      ReadReg d regControl buf = (d', out, None)
      /\ Busy d' /\ sco (into buf out) = true.



End Polling.

(** The loop does return once a read shows the bit clear: with the
    emulated chip, which clears it when the command is written, no
    iteration is needed at all. *)
Lemma bench_pressure_returns :
  exists p, snd (Pressure 0 (fst (Temperature (NewSensor bench))) 3)
            = Some (p, None)
            /\ thousandths p = Some 980046.
Proof. eexists. split; vm_compute; reflexivity. Qed.

(** Fuel beyond what the loop needs changes nothing. *)
Lemma poll_more_fuel (D : Type) (I : Device D) (fuel : nat) :
  forall (d : D) buf r,
    snd (poll fuel d buf) = Some r ->
    forall extra, poll (fuel + extra) d buf = poll fuel d buf.
Proof.
  induction fuel as [|fuel IH]; intros d buf r Hr extra.
  - rewrite poll_unfold in Hr. rewrite (poll_unfold (0 + extra)), (poll_unfold 0).
    destruct (sco buf); [discriminate|reflexivity].
  - rewrite poll_unfold in Hr.
    rewrite (poll_unfold (S fuel + extra)), (poll_unfold (S fuel)).
    destruct (sco buf); [|reflexivity].
    cbn [Nat.add].
    destruct (ReadReg d regControl buf) as [[d' out] [e|]]; [reflexivity|].
    now apply IH with r.
Qed.





(** ** Opening a sensor *)

(** C2 (as the code has it): [NewSensor] always yields a [Sensor].  When
    the read of the 22 calibration bytes succeeds, the sensor holds their
    decoding and the constants derived from it; when it fails,
    [readCalibration] reports the bus error, [NewSensor] drops it, and the
    sensor holds the all-zero calibration and the constants derived from
    that. *)
Theorem C2_NewSensor_always_constructs (D : Type) (I : Device D) (d : D) :
  let r := ReadReg d regCalibration (make calibrationNumWords) in
  let buf := into (make calibrationNumWords) (snd (fst r)) in
  snd (readCalibration (newSensor d)) = snd r
  /\ NewSensor d =
     match snd r with
     | None =>
         mkSensor (fst (fst r)) (decodeCalibration buf)
           (Calc.calcConstants (decodeCalibration buf)) 0%float
     | Some _ =>
         mkSensor (fst (fst r)) calibration_zero
           (Calc.calcConstants calibration_zero) 0%float
     end.
Proof.
  cbv zeta. unfold NewSensor, readCalibration.
  cbn [dev newSensor].
  destruct (ReadReg d regCalibration (make calibrationNumWords))
    as [[d' out] [e|]]; split; reflexivity.
Qed.

(** On a bus whose reads fail the calibration read reports an error, and
    [NewSensor] hands back a constructed sensor all the same. *)
Lemma C2_counterexample :
  snd (readCalibration (newSensor (Faults.failReads bench)))
  = Some "read: input/output error"%string
  /\ NewSensor (Faults.failReads bench)
     = mkSensor (Faults.failReads bench) calibration_zero
         (Calc.calcConstants calibration_zero) 0%float.
Proof. split; reflexivity. Qed.

(** The emulated chip opens with the calibration of the worked example. *)
Lemma bench_calibration : calib (NewSensor bench) = paper_calib.
Proof. vm_compute. reflexivity. Qed.

(** ** A temperature reading on a bus whose writes fail *)

(** C3: the write of the temperature command fails, the read after it
    succeeds, and [Temperature] returns no error: it converts the stale
    bytes of the result registers and caches the value. *)
Theorem C3_write_error_is_dropped :
  let s := NewSensor (Faults.failWrites bench) in
  snd (WriteReg (dev s) regControl [cmdReadTemp])
  = Some "write: input/output error"%string
  /\ snd (snd (Temperature s)) = None
  /\ tempCelsius (fst (Temperature s)) = fst (snd (Temperature s))
  /\ thousandths (fst (snd (Temperature s))) = Some (-81501).
Proof. cbv zeta. repeat split; vm_compute; reflexivity. Qed.

(** C8: a failed operation must leave the sensor's state alone, and the
    cache must be written only after a fully successful reading.  On a bus
    whose writes fail the code does otherwise: the write of the temperature
    command fails, [Temperature] reports no error, and the cached
    temperature goes from 0 to -81.501, converted from stale bytes. *)
Theorem C8_cache_written_after_failed_write :
  let s := NewSensor (Faults.failWrites bench) in
  snd (WriteReg (dev s) regControl [cmdReadTemp])
  = Some "write: input/output error"%string
  /\ snd (snd (Temperature s)) = None
  /\ thousandths (tempCelsius s) = Some 0
  /\ thousandths (tempCelsius (fst (Temperature s))) = Some (-81501)
  /\ tempCelsius (fst (Temperature s)) <> tempCelsius s.
Proof.
  cbv zeta.
  split; [vm_compute; reflexivity|].
  split; [vm_compute; reflexivity|].
  split; [vm_compute; reflexivity|].
  split; [vm_compute; reflexivity|].
  intros E. apply (f_equal thousandths) in E.
  vm_compute in E. discriminate E.
Qed.

(** The sibling path does check its write: the same bus makes
    [readRawPressure] return the write's error. *)
Lemma readRawPressure_write_error :
  snd (readRawPressure 0 (NewSensor (Faults.failWrites bench)) 0)
  = Some (0, 0, 0, Some "write: input/output error"%string).
Proof. vm_compute. reflexivity. Qed.

(** A failure of the read, step 3, does surface. *)
Lemma Temperature_read_error (D : Type) (I : Device D) (s : Sensor D) (e : error) :
  snd (ReadReg (fst (WriteReg (dev s) regControl [cmdReadTemp]))
         regTempOrPressure (make 2)) = Some e ->
  snd (Temperature s) = (0%float, Some e).
Proof.
  intros He. rewrite <- readRawTemp_error in He.
  unfold Temperature.
  destruct (readRawTemp s) as [s' [tu [e'|]]]; cbn [fst snd] in *.
  - congruence.
  - discriminate.
Qed.

(** ** The command byte on the bus *)

Section Command.

Import Monitor.

Context {D : Type} `{Device D}.

Lemma logged_ReadReg_writes (d : Logged D) (reg : byte) (buf : list byte) :
  writes (fst (fst (ReadReg d reg buf))) = writes d.
Proof.
  cbn [ReadReg loggedDevice].
  destruct (ReadReg (inner d) reg buf) as [[i out] e]. reflexivity.
Qed.

Lemma logged_WriteReg_writes (d : Logged D) (reg : byte) (buf : list byte) :
  writes (fst (WriteReg d reg buf)) = writes d ++ [(reg, buf)].
Proof.
  cbn [WriteReg loggedDevice].
  destruct (WriteReg (inner d) reg buf) as [i e]. reflexivity.
Qed.

Lemma poll_writes (fuel : nat) :
  forall (d : Logged D) buf, writes (fst (poll fuel d buf)) = writes d.
Proof.
  induction fuel as [|fuel IH]; intros d buf; rewrite poll_unfold;
    destruct (sco buf); try reflexivity.
  pose proof (logged_ReadReg_writes d regControl buf) as W.
  destruct (ReadReg d regControl buf) as [[d' out] [e|]]; cbn [fst] in W.
  - exact W.
  - rewrite IH. exact W.
Qed.

Lemma readRawPressure_writes (fuel : nat) (s : Sensor (Logged D)) (oss : Z) :
  writes (dev (fst (readRawPressure fuel s oss)))
  = writes (dev s) ++ [(regControl, [pressureCmd oss])].
Proof.
  unfold readRawPressure.
  pose proof (logged_WriteReg_writes (dev s) regControl [pressureCmd oss]) as W1.
  destruct (WriteReg (dev s) regControl [pressureCmd oss]) as [d1 [e1|]];
    cbn [fst] in W1; [exact W1|].
  pose proof (logged_ReadReg_writes d1 regControl (make 5)) as W2.
  destruct (ReadReg d1 regControl (make 5)) as [[d2 out] [e2|]];
    cbn [fst] in W2; [cbn; congruence|].
  pose proof (poll_writes fuel d2 (into (make 5) out)) as W3.
  destruct (poll fuel d2 (into (make 5) out)) as [d3 [[buf [e3|]]|]];
    cbn [fst] in W3; cbn; congruence.
Qed.

End Command.

Lemma pressureCmd_lor (oss : Z) :
  0 <= oss <= 3 ->
  pressureCmd oss = Z.lor 0x34 (Z.shiftl oss 6)
  /\ pressureCmd oss = nth (Z.to_nat oss) [0x34; 0x74; 0xB4; 0xF4] 0.
Proof.
  intros Hoss.
  assert (C : oss = 0 \/ oss = 1 \/ oss = 2 \/ oss = 3) by lia.
  destruct C as [-> | [-> | [-> | ->]]]; split; reflexivity.
Qed.

(** C9: for each oversampling setting 0..3, a pressure reading puts one
    write on the bus, of a single byte to the control register 0xF4, and
    that byte is 0x34 OR (oss << 6), that is 0x34, 0x74, 0xB4, 0xF4, though
    the code adds on eight bits. *)
Theorem C9_pressure_command_byte (D : Type) (I : Device D)
    (fuel : nat) (s : Sensor (Monitor.Logged D)) (oss : Z) :
  0 <= oss <= 3 ->
  pressureCmd oss = Z.lor 0x34 (Z.shiftl oss 6)
  /\ pressureCmd oss = nth (Z.to_nat oss) [0x34; 0x74; 0xB4; 0xF4] 0
  /\ Monitor.writes (dev (fst (readRawPressure fuel s oss)))
     = Monitor.writes (dev s) ++ [(0xF4, [Z.lor 0x34 (Z.shiftl oss 6)])].
Proof.
  intros Hoss.
  destruct (pressureCmd_lor oss Hoss) as [E1 E2].
  split; [exact E1|]. split; [exact E2|].
  rewrite readRawPressure_writes, E1. reflexivity.
Qed.

Lemma C9_witness :
  pressureCmd 2 = Z.lor 0x34 (Z.shiftl 2 6)
  /\ pressureCmd 2 = nth (Z.to_nat 2) [0x34; 0x74; 0xB4; 0xF4] 0
  /\ Monitor.writes
       (dev (fst (readRawPressure 4 (NewSensor (Monitor.watch bench)) 2)))
     = Monitor.writes (dev (NewSensor (Monitor.watch bench)))
       ++ [(0xF4, [Z.lor 0x34 (Z.shiftl 2 6)])].
Proof.
  apply (C9_pressure_command_byte Stub.BMP180StubDevice Stub.stubDevice 4
           (NewSensor (Monitor.watch bench)) 2).
  lia.
Defined.

(** On [uint8] the sum and the OR agree at every [oss]: the shifted value
    has bits 6 and 7 only, and 0x34 has neither. *)
Lemma pressureCmd_lor_uint8 (oss : Z) :
  is_u8 oss -> pressureCmd oss = Z.lor 0x34 (shl8 oss 6).
Proof.
  intros Hoss.
  assert (All : forallb (fun n => pressureCmd (Z.of_nat n)
                                  =? Z.lor 0x34 (shl8 (Z.of_nat n) 6))
                        (seq 0 256) = true) by (vm_compute; reflexivity).
  rewrite forallb_forall in All.
  specialize (All (Z.to_nat oss)).
  unfold is_u8 in Hoss.
  rewrite Z2Nat.id in All by lia.
  apply Z.eqb_eq, All, in_seq. lia.
Qed.

(** * Further properties of the code *)

(** ** What each operation puts on the bus *)

Section BusTraffic.

Import Trace.

Context {D : Type} `{Device D}.

Lemma traced_ReadReg (d : Traced D) (reg : byte) (buf : list byte) :
  events (fst (fst (ReadReg d reg buf)))
  = events d ++ [EvReadReg reg (List.length buf)].
Proof.
  cbn [ReadReg tracedDevice].
  destruct (ReadReg (under d) reg buf) as [[i out] e]. reflexivity.
Qed.

Lemma traced_WriteReg (d : Traced D) (reg : byte) (buf : list byte) :
  events (fst (WriteReg d reg buf)) = events d ++ [EvWriteReg reg buf].
Proof.
  cbn [WriteReg tracedDevice].
  destruct (WriteReg (under d) reg buf) as [i e]. reflexivity.
Qed.

Lemma poll_events (fuel : nat) :
  forall (d : Traced D) buf,
    exists k, (k <= fuel)%nat
      /\ events (fst (poll fuel d buf))
         = events d ++ repeat (EvReadReg regControl (List.length buf)) k.
Proof.
  induction fuel as [|fuel IH]; intros d buf; rewrite poll_unfold;
    destruct (sco buf).
  - exists 0%nat. split; [lia|]. cbn. now rewrite app_nil_r.
  - exists 0%nat. split; [lia|]. cbn. now rewrite app_nil_r.
  - pose proof (traced_ReadReg d regControl buf) as R.
    destruct (ReadReg d regControl buf) as [[d' out] [e|]]; cbn [fst] in R.
    + exists 1%nat. split; [lia|]. exact R.
    + destruct (IH d' (into buf out)) as (k & Hk & E).
      exists (S k). split; [lia|].
      rewrite E, R, into_length, <- app_assoc. reflexivity.
  - exists 0%nat. split; [lia|]. cbn. now rewrite app_nil_r.
Qed.

(** Opening a sensor is one read of 22 bytes at 0xAA, and [ID] one read of
    a single byte at 0xD0; neither writes to the chip. *)
Theorem open_and_ID_traffic (d : Traced D) (s : Sensor (Traced D)) :
  events (dev (NewSensor d)) = events d ++ [EvReadReg 0xAA 22]
  /\ events (dev (fst (ID s))) = events (dev s) ++ [EvReadReg 0xD0 1].
Proof.
  split.
  - unfold NewSensor, readCalibration. cbn [dev newSensor].
    pose proof (traced_ReadReg d regCalibration (make calibrationNumWords)) as R.
    destruct (ReadReg d regCalibration (make calibrationNumWords))
      as [[d' out] [e|]]; cbn [fst] in R; exact R.
  - unfold ID.
    pose proof (traced_ReadReg (dev s) regID (make 1)) as R.
    destruct (ReadReg (dev s) regID (make 1)) as [[d' out] [e|]];
      cbn [fst] in R; exact R.
Qed.

(** A temperature reading is the write of 0x2E to 0xF4 followed by a read
    of two bytes at 0xF6, and the read is issued whatever the write
    returned. *)
Theorem Temperature_traffic (s : Sensor (Traced D)) :
  events (dev (fst (Temperature s)))
  = events (dev s) ++ [EvWriteReg 0xF4 [0x2E]; EvReadReg 0xF6 2].
Proof.
  unfold Temperature, readRawTemp.
  pose proof (traced_WriteReg (dev s) regControl [cmdReadTemp]) as W.
  destruct (WriteReg (dev s) regControl [cmdReadTemp]) as [d1 e1].
  cbn [fst] in W.
  pose proof (traced_ReadReg d1 regTempOrPressure (make 2)) as R.
  destruct (ReadReg d1 regTempOrPressure (make 2)) as [[d2 out] [e|]];
    cbn [fst] in R; cbn; rewrite R, W, <- app_assoc; reflexivity.
Qed.

(** A pressure reading writes its command once.  When that write fails the
    error is returned and nothing is read; otherwise the rest of the
    traffic is reads of five bytes at 0xF4: the first one, and one more per
    iteration of the polling loop. *)
Theorem readRawPressure_traffic (fuel : nat) (s : Sensor (Traced D)) (oss : Z) :
  let r := readRawPressure fuel s oss in
  let before := events (dev s) ++ [EvWriteReg 0xF4 [pressureCmd oss]] in
  match snd (WriteReg (dev s) regControl [pressureCmd oss]) with
  | Some e =>
      events (dev (fst r)) = before /\ snd r = Some (0, 0, 0, Some e)
  | None =>
      exists k, (k <= fuel)%nat
        /\ events (dev (fst r)) = before ++ repeat (EvReadReg 0xF4 5) (S k)
  end.
Proof.
  cbv zeta. unfold readRawPressure.
  pose proof (traced_WriteReg (dev s) regControl [pressureCmd oss]) as W.
  destruct (WriteReg (dev s) regControl [pressureCmd oss]) as [d1 [e1|]];
    cbn [fst snd] in *.
  - split; [exact W | reflexivity].
  - pose proof (traced_ReadReg d1 regControl (make 5)) as R.
    destruct (ReadReg d1 regControl (make 5)) as [[d2 out] [e2|]];
      cbn [fst] in R.
    + exists 0%nat. split; [lia|]. cbn [fst dev set_dev]. rewrite R, W. reflexivity.
    + destruct (poll_events fuel d2 (into (make 5) out)) as (k & Hk & E).
      exists k. split; [exact Hk|].
      rewrite into_length in E.
      destruct (poll fuel d2 (into (make 5) out)) as [d3 [[buf [e3|]]|]];
        cbn [fst dev set_dev] in *; rewrite E, R, W, <- app_assoc; reflexivity.
Qed.

End BusTraffic.

(** ** The temperature a pressure reading is compensated with *)

Section Compensation.

Context {D : Type} `{Device D}.

Lemma Pressure_value (fuel : nat) (s : Sensor D) (oss : Z) (msb lsb xlsb : byte) :
  snd (readRawPressure fuel s oss) = Some (msb, lsb, xlsb, None) ->
  snd (Pressure fuel s oss)
  = Some (Calc.calcPressurePascal (tempCelsius s) msb lsb xlsb (cnsts s), None).
Proof.
  intros E. unfold Pressure.
  pose proof (readRawPressure_kept fuel s oss) as (K1 & K2 & K3).
  destruct (readRawPressure fuel s oss) as [s' r]. cbn [fst snd] in *.
  subst r. rewrite K2, K3. reflexivity.
Qed.

(** A pressure reading on a sensor that has not read a temperature yet is
    compensated at 0 degrees, the zero value of the cache. *)
Theorem Pressure_before_Temperature (fuel : nat) (d : D) (oss : Z)
    (msb lsb xlsb : byte) :
  snd (readRawPressure fuel (NewSensor d) oss) = Some (msb, lsb, xlsb, None) ->
  snd (Pressure fuel (NewSensor d) oss)
  = Some (Calc.calcPressurePascal 0 msb lsb xlsb
            (Calc.calcConstants (calib (NewSensor d))), None).
Proof.
  intros E. rewrite (Pressure_value fuel _ oss msb lsb xlsb E).
  unfold NewSensor, readCalibration. cbn [dev newSensor].
  destruct (ReadReg d regCalibration (make calibrationNumWords))
    as [[d' out] [e|]]; reflexivity.
Qed.

(** After a temperature reading that succeeded, a pressure reading is
    compensated with the temperature that reading returned; after one that
    failed, with whatever was cached before. *)
Theorem Pressure_after_Temperature (fuel : nat) (s : Sensor D) (oss : Z)
    (msb lsb xlsb : byte) :
  let s' := fst (Temperature s) in
  snd (readRawPressure fuel s' oss) = Some (msb, lsb, xlsb, None) ->
  snd (Pressure fuel s' oss)
  = Some (Calc.calcPressurePascal
            (match snd (snd (Temperature s)) with
             | None => fst (snd (Temperature s))
             | Some _ => tempCelsius s
             end) msb lsb xlsb (cnsts s), None).
Proof.
  cbv zeta. intros E. rewrite (Pressure_value fuel _ oss msb lsb xlsb E).
  clear E. unfold Temperature.
  pose proof (readRawTemp_kept s) as (K1 & K2 & K3).
  destruct (readRawTemp s) as [s1 [tu [e|]]]; cbn [fst snd] in *.
  - rewrite K2, K3. reflexivity.
  - cbn. rewrite K2. reflexivity.
Qed.

End Compensation.

(** ** Buffers and the emulated memory *)

Lemma at_into (buf out : list byte) (i : nat) :
  at_ (into buf out) i
  = if (i <? List.length out)%nat && (i <? List.length buf)%nat
    then wrap8 (at_ out i) else at_ buf i.
Proof.
  unfold at_, into.
  assert (Hm : List.length (map wrap8 (firstn (List.length buf) out))
               = Nat.min (List.length buf) (List.length out))
    by now rewrite length_map, length_firstn.
  destruct (Nat.ltb_spec i (List.length out)) as [Ho|Ho];
    destruct (Nat.ltb_spec i (List.length buf)) as [Hb|Hb]; cbn [andb].
  - rewrite app_nth1 by lia.
    change 0 with (wrap8 0) at 1. rewrite map_nth.
    rewrite nth_firstn.
    destruct (Nat.ltb_spec i (List.length buf)); [reflexivity|lia].
  - rewrite app_nth2 by lia. rewrite nth_skipn.
    rewrite !nth_overflow by lia. reflexivity.
  - rewrite app_nth2 by lia. rewrite nth_skipn. f_equal. lia.
  - rewrite app_nth2 by lia. rewrite nth_skipn.
    rewrite !nth_overflow by lia. reflexivity.
Qed.

Lemma copyAt_length (mem : list byte) (off : Z) (data : list byte) :
  List.length (Stub.copyAt mem off data) = List.length mem.
Proof.
  unfold Stub.copyAt.
  rewrite length_app, into_length, length_firstn, length_skipn. lia.
Qed.

Lemma at_copyAt (mem : list byte) (off : Z) (data : list byte) (i : nat) :
  at_ (Stub.copyAt mem off data) i
  = if (Z.to_nat off <=? i)%nat && (i <? Z.to_nat off + List.length data)%nat
       && (i <? List.length mem)%nat
    then wrap8 (at_ data (i - Z.to_nat off)) else at_ mem i.
Proof.
  unfold Stub.copyAt. set (o := Z.to_nat off).
  destruct (Nat.leb_spec o i) as [Hoi|Hoi]; cbn [andb].
  - destruct (Nat.ltb_spec i (List.length mem)) as [Him|Him].
    + unfold at_ at 1. rewrite app_nth2 by (rewrite length_firstn; lia).
      rewrite length_firstn, Nat.min_l by lia.
      fold (at_ (into (skipn o mem) data) (i - o)).
      rewrite at_into, length_skipn.
      destruct (Nat.ltb_spec (i - o) (List.length data));
        destruct (Nat.ltb_spec i (o + List.length data)); try lia;
        destruct (Nat.ltb_spec (i - o) (List.length mem - o)); try lia;
        cbn [andb]; try reflexivity.
      unfold at_. rewrite nth_skipn. f_equal. lia.
    + rewrite andb_false_r. unfold at_.
      rewrite !nth_overflow; [reflexivity | lia |].
      rewrite length_app, into_length, length_firstn, length_skipn. lia.
  - unfold at_.
    destruct (Nat.ltb_spec i (List.length mem)) as [Him|Him].
    + rewrite app_nth1 by (rewrite length_firstn; lia).
      rewrite nth_firstn.
      destruct (Nat.ltb_spec i o); [reflexivity|lia].
    + rewrite !nth_overflow; [reflexivity | lia |].
      rewrite length_app, into_length, length_firstn, length_skipn. lia.
Qed.

Lemma clearBits_length (mem : list byte) (i mask : Z) :
  List.length (Stub.clearBits mem i mask) = List.length mem.
Proof.
  unfold Stub.clearBits.
  rewrite <- (firstn_skipn (Z.to_nat i) mem) at 3.
  rewrite !length_app. f_equal.
  destruct (skipn (Z.to_nat i) mem); reflexivity.
Qed.

Lemma at_clearBits (mem : list byte) (idx mask : Z) (i : nat) :
  at_ (Stub.clearBits mem idx mask) i
  = if (i =? Z.to_nat idx)%nat && (i <? List.length mem)%nat
    then Z.ldiff (at_ mem i) mask else at_ mem i.
Proof.
  unfold Stub.clearBits. set (o := Z.to_nat idx).
  assert (Hsplit : mem = firstn o mem ++ skipn o mem)
    by now rewrite firstn_skipn.
  destruct (Nat.ltb_spec i (List.length mem)) as [Him|Him].
  - destruct (Nat.eqb_spec i o) as [->|Hne]; cbn [andb].
    + unfold at_. rewrite app_nth2 by (rewrite length_firstn; lia).
      rewrite length_firstn, Nat.min_l, Nat.sub_diag by lia.
      pose proof (nth_skipn o mem 0%nat 0) as S0.
      rewrite Nat.add_0_r in S0.
      destruct (skipn o mem) as [|v rest] eqn:Es.
      * apply (f_equal (@List.length byte)) in Es.
        rewrite length_skipn in Es. cbn in Es. lia.
      * cbn in S0. cbn. now rewrite S0.
    + unfold at_.
      destruct (Nat.ltb_spec i o) as [Hlt|Hge].
      * rewrite app_nth1 by (rewrite length_firstn; lia).
        rewrite nth_firstn.
        destruct (Nat.ltb_spec i o); [reflexivity|lia].
      * rewrite app_nth2 by (rewrite length_firstn; lia).
        rewrite length_firstn, Nat.min_l by lia.
        pose proof (nth_skipn o mem (i - o) 0) as S1.
        replace (o + (i - o))%nat with i in S1 by lia.
        destruct (skipn o mem) as [|v rest] eqn:Es.
        -- now rewrite <- S1.
        -- rewrite <- S1.
           destruct (i - o)%nat as [|j] eqn:Ej; [lia|reflexivity].
  - rewrite andb_false_r. unfold at_.
    pose proof (clearBits_length mem idx mask) as L.
    unfold Stub.clearBits in L. fold o in L.
    rewrite !nth_overflow; [reflexivity | lia | lia].
Qed.

(** ** The command byte at every oversampling value *)

Lemma pressureCmd_mod4 (oss : Z) :
  pressureCmd oss = 0x34 + 64 * (oss mod 4).
Proof.
  unfold pressureCmd, add8, shl8, wrap8, cmdReadPressure.
  rewrite Z.shiftl_mul_pow2 by lia.
  change (2 ^ 6) with 64. change 256 with (4 * 64).
  rewrite Z.mul_mod_distr_r by lia.
  pose proof (Z.mod_pos_bound oss 4 ltac:(lia)) as B.
  rewrite Z.mod_small by lia. lia.
Qed.

(** The oversampling setting is not checked.  Whatever [oss] a caller
    passes, the command sent is the one of [oss mod 4], and for a setting
    above 3 the conversion time waited for is zero. *)
Theorem oversampling_not_checked (oss : Z) :
  3 < oss ->
  pressureCmd oss = pressureCmd (oss mod 4)
  /\ In (pressureCmd oss) [0x34; 0x74; 0xB4; 0xF4]
  /\ delay oss = 0.
Proof.
  intros Hoss.
  pose proof (Z.mod_pos_bound oss 4 ltac:(lia)) as B.
  split; [|split].
  - rewrite (pressureCmd_mod4 oss), (pressureCmd_mod4 (oss mod 4)).
    now rewrite Z.mod_mod by lia.
  - rewrite pressureCmd_mod4.
    assert (C : oss mod 4 = 0 \/ oss mod 4 = 1 \/ oss mod 4 = 2 \/ oss mod 4 = 3)
      by lia.
    destruct C as [-> | [-> | [-> | ->]]]; cbn; tauto.
  - unfold delay.
    destruct (Z.eqb_spec oss 0); [lia|].
    destruct (Z.eqb_spec oss 1); [lia|].
    destruct (Z.eqb_spec oss 2); [lia|].
    destruct (Z.eqb_spec oss 3); [lia|]. reflexivity.
Qed.

Lemma oversampling_not_checked_witness :
  pressureCmd 7 = pressureCmd (7 mod 4)
  /\ In (pressureCmd 7) [0x34; 0x74; 0xB4; 0xF4]
  /\ delay 7 = 0.
Proof. apply (oversampling_not_checked 7). lia. Defined.

(** ** Calibration bytes and numbers *)

Lemma int16Bytes_u8 (v : Z) :
  is_u8 (at_ (Stub.int16Bytes v) 0) /\ is_u8 (at_ (Stub.int16Bytes v) 1)
  /\ readUint16 (Stub.int16Bytes v) = wrap16 v.
Proof.
  unfold Stub.int16Bytes, readUint16, at_, is_u8, wrap16. cbn [nth].
  pose proof (Z.mod_pos_bound v 65536 ltac:(lia)) as B.
  pose proof (Z.div_mod (v mod 65536) 256 ltac:(lia)) as E.
  pose proof (Z.mod_pos_bound (v mod 65536) 256 ltac:(lia)) as B2.
  assert (0 <= v mod 65536 / 256 < 256).
  { split; [apply Z.div_pos; lia | apply Z.div_lt_upper_bound; lia]. }
  repeat split; lia.
Qed.

Lemma int16Bytes_decoded (v : Z) :
  (is_i16 v -> readInt16 (Stub.int16Bytes v) = v)
  /\ (is_u16 v -> readUint16 (Stub.int16Bytes v) = v)
  /\ (is_u16 v ->
      add16 (shl16 (at_ (Stub.int16Bytes v) 0) 8) (at_ (Stub.int16Bytes v) 1) = v).
Proof.
  destruct (int16Bytes_u8 v) as (H0 & H1 & E).
  split; [|split].
  - intros Hv. unfold readInt16. rewrite E. unfold wrap16, is_i16 in *.
    destruct (Z_lt_dec v 0) as [Hneg|Hpos].
    + replace (v mod 65536) with (v + 65536).
      * destruct (Z.leb_spec 32768 (v + 65536)); lia.
      * apply Z.mod_unique with (-1); lia.
    + rewrite Z.mod_small by lia.
      destruct (Z.leb_spec 32768 v); lia.
  - intros Hv. rewrite E. unfold wrap16, is_u16 in *.
    now rewrite Z.mod_small.
  - intros Hv. unfold readUint16 in E.
    unfold add16, shl16, wrap16, is_u8, is_u16 in *.
    rewrite Z.shiftl_mul_pow2 by lia. change (2 ^ 8) with 256.
    rewrite (Z.mod_small (_ * 256)) by lia.
    rewrite E. rewrite Z.mod_mod by lia. now rewrite Z.mod_small.
Qed.

(** The big-endian decoders of the sensor undo the big-endian encoder of
    the emulated device, on every value of the field's type. *)
Theorem int16_round_trip (v : Z) :
  (is_i16 v -> readInt16 (Stub.int16Bytes v) = v)
  /\ (is_u16 v -> readUint16 (Stub.int16Bytes v) = v)
  /\ (is_u16 v ->
      add16 (shl16 (at_ (Stub.int16Bytes v) 0) 8) (at_ (Stub.int16Bytes v) 1) = v).
Proof. exact (int16Bytes_decoded v). Qed.

Lemma int16_round_trip_witness :
  readInt16 (Stub.int16Bytes (-11075)) = -11075.
Proof.
  apply (proj1 (int16_round_trip (-11075))). unfold is_i16. lia.
Defined.

(** Whatever calibration within the field ranges a chip holds, a sensor
    opened on a bus whose read fills the 22-byte buffer with the chip's
    bytes holds exactly that calibration, field for field, and the
    constants derived from it. *)
Theorem NewSensor_reads_calibration (D : Type) (I : Device D) (d d' : D)
    (out : list byte) (c : calibration) :
  in_range c ->
  ReadReg d regCalibration (make calibrationNumWords) = (d', out, None) ->
  into (make calibrationNumWords) out = calibrationImage c ->
  NewSensor d = mkSensor d' c (Calc.calcConstants c) 0%float.
Proof.
  intros (R1 & R2 & R3 & R4 & R5 & R6 & R7 & R8 & R9 & R10 & R11) E Eo.
  unfold NewSensor, readCalibration. cbn [dev newSensor]. rewrite E, Eo.
  assert (Dec : decodeCalibration (calibrationImage c) = c).
  { destruct c as [a1 a2 a3 a4 a5 a6 v1 v2 vb vc vd]. cbn in *.
    unfold decodeCalibration, calibrationImage.
    cbn [ac1 ac2 ac3 ac4 ac5 ac6 b1 b2 mb mc md map List.concat
         Stub.int16Bytes app slice Nat.sub firstn skipn].
    f_equal;
      first [ apply (proj1 (int16Bytes_decoded _)); assumption
            | apply (proj1 (proj2 (int16Bytes_decoded _))); assumption ]. }
  cbn [set_dev set_calib set_cnsts calib dev cnsts tempCelsius].
  rewrite Dec. reflexivity.
Qed.

Lemma NewSensor_reads_calibration_witness :
  NewSensor bench
  = mkSensor (fst (fst (ReadReg bench regCalibration (make calibrationNumWords))))
      paper_calib (Calc.calcConstants paper_calib) 0%float.
Proof.
  apply (NewSensor_reads_calibration Stub.BMP180StubDevice Stub.stubDevice bench
           (fst (fst (ReadReg bench regCalibration (make calibrationNumWords))))
           (snd (fst (ReadReg bench regCalibration (make calibrationNumWords))))
           paper_calib).
  - unfold in_range, is_i16, is_u16. cbn. lia.
  - reflexivity.
  - reflexivity.
Defined.

(** ** The emulated device *)

Section EmulatedDevice.

Import Stub.

Lemma stubWriteReg_length (d : BMP180StubDevice) (reg : byte) (buf : list byte) :
  List.length (memory (fst (stubWriteReg d reg buf))) = List.length (memory d).
Proof.
  unfold stubWriteReg.
  destruct (reg =? regControl); cbn [fst memory].
  - rewrite clearBits_length.
    destruct (at_ buf 0 =? cmdReadTemp);
      [|destruct ((at_ buf 0 =? 0x34) || (at_ buf 0 =? 0x74) || (at_ buf 0 =? 0xb4));
        [|destruct (at_ buf 0 =? 0xf4)]];
      rewrite ?copyAt_length; reflexivity.
  - apply copyAt_length.
Qed.

Lemma stubWriteReg_pointer (d : BMP180StubDevice) (reg : byte) (buf : list byte) :
  memPointer (fst (stubWriteReg d reg buf))
  = reg + Z.of_nat (Nat.min (List.length (skipn (Z.to_nat reg) (memory d)))
                            (List.length buf)).
Proof.
  unfold stubWriteReg. destruct (reg =? regControl); reflexivity.
Qed.

(** No access grows or shrinks the 255 bytes of memory, and the memory
    pointer stays within them: a transfer that runs past the end is cut
    short. *)
Theorem stub_memory_bounds (d : BMP180StubDevice) (reg : byte) (buf : list byte) :
  sized d -> is_u8 reg ->
  (sized (fst (WriteReg d reg buf))
   /\ 0 <= memPointer (fst (WriteReg d reg buf)) <= 255)
  /\ (sized (fst (fst (ReadReg d reg buf)))
      /\ 0 <= memPointer (fst (fst (ReadReg d reg buf))) <= 255)
  /\ (sized (fst (Write d buf))
      /\ 0 <= memPointer (fst (Write d buf)) <= 255)
  /\ (sized (fst (fst (Read d buf)))
      /\ 0 <= memPointer (fst (fst (Read d buf))) <= 255).
Proof.
  unfold sized, is_u8. intros Hd Hreg.
  assert (Wr : forall r, 0 <= r < 256 ->
             List.length (memory (fst (stubWriteReg d r buf))) = 255%nat
             /\ 0 <= memPointer (fst (stubWriteReg d r buf)) <= 255).
  { intros r Hr. rewrite stubWriteReg_length, stubWriteReg_pointer, length_skipn.
    split; [exact Hd | lia]. }
  assert (Rd : forall r, 0 <= r < 256 ->
             List.length (memory (fst (fst (stubReadReg d r buf)))) = 255%nat
             /\ 0 <= memPointer (fst (fst (stubReadReg d r buf))) <= 255).
  { intros r Hr. unfold stubReadReg. cbn [fst memory memPointer].
    rewrite length_skipn. split; [exact Hd | lia]. }
  assert (Hp : 0 <= wrap8 (memPointer d) < 256)
    by (apply Z.mod_pos_bound; lia).
  split; [exact (Wr reg Hreg)|]. split; [exact (Rd reg Hreg)|]. split.
  - cbn [Write stubDevice].
    pose proof (Wr _ Hp) as W.
    destruct (stubWriteReg d (wrap8 (memPointer d)) buf) as [d' e]. exact W.
  - cbn [Read stubDevice].
    pose proof (Rd _ Hp) as R.
    destruct (stubReadReg d (wrap8 (memPointer d)) buf) as [[d' out] e]. exact R.
Qed.

Lemma stub_memory_bounds_witness :
  sized (fst (WriteReg bench 0xFE [1; 2; 3; 4]))
  /\ 0 <= memPointer (fst (WriteReg bench 0xFE [1; 2; 3; 4])) <= 255.
Proof.
  apply (stub_memory_bounds bench 0xFE [1; 2; 3; 4]).
  - reflexivity.
  - unfold is_u8. lia.
Defined.

(** What is written at a register other than the control register is what
    a read at that register gives back, as long as it fits before the end
    of the memory. *)
Theorem stub_write_read (d : BMP180StubDevice) (reg : byte) (data : list byte) :
  sized d -> 0 <= reg -> reg <> regControl ->
  reg + Z.of_nat (List.length data) <= 255 ->
  let d1 := fst (WriteReg d reg data) in
  let buf := make (List.length data) in
  into buf (snd (fst (ReadReg d1 reg buf))) = map wrap8 data
  /\ snd (ReadReg d1 reg buf) = None.
Proof.
  unfold sized. intros Hd Hreg Hne Hfit. cbv zeta.
  split; [|reflexivity].
  cbn [WriteReg ReadReg stubDevice].
  unfold stubWriteReg. destruct (Z.eqb_spec reg regControl) as [|_]; [contradiction|].
  unfold stubReadReg. cbn [fst snd memory].
  apply nth_ext with (d := 0) (d' := 0).
  - rewrite into_length, length_map. unfold make. now rewrite repeat_length.
  - intros i Hi. rewrite into_length in Hi. unfold make in Hi.
    rewrite repeat_length in Hi.
    fold (at_ (into (make (List.length data))
                 (skipn (Z.to_nat reg) (copyAt (memory d) reg data))) i).
    rewrite at_into, length_skipn, copyAt_length.
    unfold make at 1. rewrite repeat_length.
    destruct (Nat.ltb_spec i (List.length (memory d) - Z.to_nat reg)); [|lia].
    destruct (Nat.ltb_spec i (List.length data)); [|lia].
    cbn [andb]. unfold at_ at 1. rewrite nth_skipn.
    fold (at_ (copyAt (memory d) reg data) (Z.to_nat reg + i)).
    rewrite at_copyAt.
    destruct (Nat.leb_spec (Z.to_nat reg) (Z.to_nat reg + i)); [|lia].
    destruct (Nat.ltb_spec (Z.to_nat reg + i) (Z.to_nat reg + List.length data)); [|lia].
    destruct (Nat.ltb_spec (Z.to_nat reg + i) (List.length (memory d))); [|lia].
    cbn [andb].
    replace (Z.to_nat reg + i - Z.to_nat reg)%nat with i by lia.
    unfold wrap8. rewrite Z.mod_mod by lia.
    symmetry. exact (map_nth (fun z => z mod 256) data 0 i).
Qed.

Lemma stub_write_read_witness :
  into (make 3) (snd (fst (ReadReg (fst (WriteReg bench 0x10 [7; 8; 9])) 0x10 (make 3))))
  = map wrap8 [7; 8; 9]
  /\ snd (ReadReg (fst (WriteReg bench 0x10 [7; 8; 9])) 0x10 (make 3)) = None.
Proof.
  apply (stub_write_read bench 0x10 [7; 8; 9]).
  - reflexivity.
  - lia.
  - discriminate.
  - cbn. lia.
Defined.

End EmulatedDevice.

(** ** Measurements on the emulated device *)

Section EmulatedMeasurements.

Import Stub.

Lemma at_copyAt_out (mem : list byte) (off : Z) (data : list byte) (i : nat) :
  (i < Z.to_nat off \/ Z.to_nat off + List.length data <= i)%nat ->
  at_ (copyAt mem off data) i = at_ mem i.
Proof.
  intros Hi. rewrite at_copyAt.
  destruct (Nat.leb_spec (Z.to_nat off) i);
    destruct (Nat.ltb_spec i (Z.to_nat off + List.length data));
    try reflexivity; lia.
Qed.

Lemma at_copyAt_in (mem : list byte) (off : Z) (data : list byte) (i : nat) :
  (Z.to_nat off <= i < Z.to_nat off + List.length data)%nat ->
  (i < List.length mem)%nat ->
  at_ (copyAt mem off data) i = wrap8 (at_ data (i - Z.to_nat off)).
Proof.
  intros Hi Hm. rewrite at_copyAt.
  destruct (Nat.leb_spec (Z.to_nat off) i); [|lia].
  destruct (Nat.ltb_spec i (Z.to_nat off + List.length data)); [|lia].
  destruct (Nat.ltb_spec i (List.length mem)); [reflexivity|lia].
Qed.

Lemma at_clearBits_other (mem : list byte) (idx mask : Z) (i : nat) :
  i <> Z.to_nat idx -> at_ (clearBits mem idx mask) i = at_ mem i.
Proof.
  intros Hi. rewrite at_clearBits.
  destruct (Nat.eqb_spec i (Z.to_nat idx)); [contradiction|reflexivity].
Qed.

Lemma at_clearBits_at (mem : list byte) (idx mask : Z) :
  (Z.to_nat idx < List.length mem)%nat ->
  at_ (clearBits mem idx mask) (Z.to_nat idx)
  = Z.ldiff (at_ mem (Z.to_nat idx)) mask.
Proof.
  intros Hi. rewrite at_clearBits, Nat.eqb_refl.
  destruct (Nat.ltb_spec (Z.to_nat idx) (List.length mem)); [reflexivity|lia].
Qed.

(** A read of [n] bytes at [reg] delivers the memory from [reg] on. *)
Lemma at_read (mem : list byte) (o n k : nat) :
  (k < n)%nat -> (o + k < List.length mem)%nat ->
  at_ (into (make n) (skipn o mem)) k = wrap8 (at_ mem (o + k)).
Proof.
  intros Hk Hm. rewrite at_into, length_skipn.
  unfold make at 1. rewrite repeat_length.
  destruct (Nat.ltb_spec k (List.length mem - o)); [|lia].
  destruct (Nat.ltb_spec k n); [|lia].
  cbn [andb]. unfold at_. now rewrite nth_skipn.
Qed.

(** The bit the polling loop looks at is clear once it has been cleared,
    whatever the byte was. *)
Lemma sco_bit_cleared (v : Z) : Z.land (wrap8 (Z.ldiff v 0x20)) 0x20 = 0.
Proof.
  apply Z.bits_inj'. intros n Hn.
  rewrite Z.land_spec, Z.bits_0.
  change 0x20 with (2 ^ 5) at 2. rewrite Z.pow2_bits_eqb by lia.
  destruct (Z.eqb_spec 5 n) as [<-|Hne]; [|apply andb_false_r].
  unfold wrap8. change 256 with (2 ^ 8).
  rewrite Z.mod_pow2_bits_low by lia.
  rewrite Z.ldiff_spec. change 0x20 with (2 ^ 5).
  rewrite Z.pow2_bits_true by lia. cbn. now rewrite andb_false_r.
Qed.

(** The memory after a command has been written to the control register:
    the command with its busy bit cleared at 0xF4, the result bytes [ret]
    of the command from 0xF6 on, everything else as before. *)
Lemma control_write_memory (mem : list byte) (c : byte) (ret : list byte) :
  List.length mem = 255%nat -> (List.length ret <= 3)%nat ->
  let mem' :=
    clearBits (copyAt (copyAt mem regControl [c]) regTempOrPressure ret)
      regControl 0x20 in
  List.length mem' = 255%nat
  /\ at_ mem' 244 = Z.ldiff (wrap8 c) 0x20
  /\ (forall k, (k < List.length ret)%nat ->
                at_ mem' (246 + k) = wrap8 (at_ ret k))
  /\ (forall i, i <> 244%nat ->
                (i < 246 \/ 246 + List.length ret <= i)%nat ->
                at_ mem' i = at_ mem i).
Proof.
  intros Hm Hr. cbv zeta.
  assert (T244 : Z.to_nat regControl = 244%nat) by reflexivity.
  assert (T246 : Z.to_nat regTempOrPressure = 246%nat) by reflexivity.
  split; [now rewrite clearBits_length, !copyAt_length|].
  split; [|split].
  - rewrite <- T244 at 1. rewrite at_clearBits_at
      by (rewrite !copyAt_length, T244; lia).
    rewrite at_copyAt_out by (rewrite T244, T246; lia).
    rewrite at_copyAt_in by (rewrite ?T244; cbn [List.length]; lia).
    rewrite T244, Nat.sub_diag. reflexivity.
  - intros k Hk.
    rewrite at_clearBits_other by (rewrite T244; lia).
    rewrite at_copyAt_in by (rewrite ?copyAt_length, ?T246; lia).
    rewrite T246. f_equal. f_equal. lia.
  - intros i Hne Hi.
    rewrite at_clearBits_other by (rewrite T244; lia).
    rewrite at_copyAt_out by (rewrite T246; lia).
    rewrite at_copyAt_out by (rewrite T244; cbn [List.length]; lia).
    reflexivity.
Qed.

Lemma poll_done (D : Type) (I : Device D) (fuel : nat) (d : D) (buf : list byte) :
  sco buf = false -> poll fuel d buf = (d, Some (buf, None)).
Proof. intros Hb. rewrite poll_unfold, Hb. reflexivity. Qed.

End EmulatedMeasurements.

Section EmulatedPressure.

Import Stub.

Lemma stub_pressure_write (d : BMP180StubDevice) (r : Z)
    (w : BMP180StubDevice * option error) :
  0 <= r < 4 -> sized d ->
  w = stubWriteReg d regControl [0x34 + 64 * r] ->
  let ret := if r =? 3 then [0x98; 0x2F; 0xC0] else [0x98; 0x2F] in
  snd w = None
  /\ List.length (memory (fst w)) = 255%nat
  /\ at_ (memory (fst w)) 244 = Z.ldiff (wrap8 (0x34 + 64 * r)) 0x20
  /\ (forall k, (k < List.length ret)%nat ->
                at_ (memory (fst w)) (246 + k) = wrap8 (at_ ret k))
  /\ (forall i, i <> 244%nat ->
                (i < 246 \/ 246 + List.length ret <= i)%nat ->
                at_ (memory (fst w)) i = at_ (memory d) i).
Proof.
  intros Hr Hd ->.
  assert (C : r = 0 \/ r = 1 \/ r = 2 \/ r = 3) by lia.
  destruct C as [-> | [-> | [-> | ->]]]; cbv zeta;
    (split; [reflexivity|]);
    [ exact (control_write_memory (memory d) 0x34 [0x98; 0x2F] Hd ltac:(cbn; lia))
    | exact (control_write_memory (memory d) 0x74 [0x98; 0x2F] Hd ltac:(cbn; lia))
    | exact (control_write_memory (memory d) 0xb4 [0x98; 0x2F] Hd ltac:(cbn; lia))
    | exact (control_write_memory (memory d) 0xf4 [0x98; 0x2F; 0xC0] Hd
               ltac:(cbn; lia)) ].
Qed.

Lemma stub_pressure_bytes (s : Sensor BMP180StubDevice) (fuel : nat) (oss : Z) :
  sized (dev s) ->
  snd (readRawPressure fuel s oss)
  = Some (0x98, 0x2F,
          (if oss mod 4 =? 3 then 0xC0 else wrap8 (at_ (memory (dev s)) 248)),
          None).
Proof.
  intros Hd. unfold readRawPressure.
  rewrite pressureCmd_mod4.
  pose proof (Z.mod_pos_bound oss 4 ltac:(lia)) as Hr.
  set (r := oss mod 4) in *.
  cbn [WriteReg stubDevice].
  match goal with
  | |- context [stubWriteReg ?a ?b ?c] =>
      destruct (stubWriteReg a b c) as [d1 e1] eqn:Ew
  end.
  destruct (stub_pressure_write (dev s) r (d1, e1) Hr Hd (eq_sym Ew))
    as (Ee & Hlen & H244 & Hin & Hout).
  cbn [fst snd] in Ee, Hlen, H244, Hin, Hout. subst e1.
  cbn [ReadReg stubDevice]. unfold stubReadReg. cbv beta iota zeta.
  change (Z.to_nat regControl) with 244%nat.
  assert (Hsco : sco (into (make 5) (skipn 244 (memory d1))) = false).
  { unfold sco. rewrite at_read by lia. rewrite Nat.add_0_r, H244.
    now rewrite sco_bit_cleared. }
  rewrite poll_done by exact Hsco.
  cbn [snd]. rewrite !at_read by lia.
  change (244 + 2)%nat with (246 + 0)%nat.
  change (244 + 3)%nat with (246 + 1)%nat.
  change (244 + 4)%nat with (246 + 2)%nat.
  destruct (Z.eqb_spec r 3) as [E3|N3].
  - rewrite !Hin by (cbn; lia). reflexivity.
  - rewrite !Hin by (cbn; lia).
    rewrite Hout by (cbn [List.length]; lia).
    reflexivity.
Qed.

(** On the emulated device a pressure reading returns at once, for every
    oversampling value and polling budget.  The first two bytes are 0x98
    and 0x2F; the third is 0xC0 when [oss mod 4] is 3, and otherwise
    whatever register 0xF8 held before the call, because for the other
    settings the device writes two bytes only. *)
Theorem stub_raw_pressure (s : Sensor BMP180StubDevice) (fuel : nat) (oss : Z) :
  sized (dev s) ->
  snd (readRawPressure fuel s oss)
  = Some (0x98, 0x2F,
          (if oss mod 4 =? 3 then 0xC0 else wrap8 (at_ (memory (dev s)) 248)),
          None).
Proof. exact (stub_pressure_bytes s fuel oss). Qed.

Lemma stub_raw_pressure_witness :
  snd (readRawPressure 0 (NewSensor bench) 1)
  = Some (0x98, 0x2F,
          (if 1 mod 4 =? 3 then 0xC0
           else wrap8 (at_ (memory (dev (NewSensor bench))) 248)),
          None).
Proof. apply (stub_raw_pressure (NewSensor bench) 0 1). reflexivity. Defined.

End EmulatedPressure.

(** ** What the sensor can do to a device *)

Section DeviceInvariant.

Context {D : Type} `{Device D}.

Variable P : D -> Prop.
Hypothesis P_read : forall d reg buf, P d -> P (fst (fst (ReadReg d reg buf))).
Hypothesis P_control :
  forall d buf, P d -> P (fst (WriteReg d regControl buf)).

Lemma NewSensor_invariant (d : D) : P d -> P (dev (NewSensor d)).
Proof.
  intros Hd. unfold NewSensor, readCalibration. cbn [dev newSensor].
  pose proof (P_read d regCalibration (make calibrationNumWords) Hd) as R.
  destruct (ReadReg d regCalibration (make calibrationNumWords))
    as [[d' out] [e|]]; exact R.
Qed.

Lemma poll_invariant (fuel : nat) :
  forall d buf, P d -> P (fst (poll fuel d buf)).
Proof.
  induction fuel as [|fuel IH]; intros d buf Hd; rewrite poll_unfold;
    destruct (sco buf); try exact Hd.
  pose proof (P_read d regControl buf Hd) as R.
  destruct (ReadReg d regControl buf) as [[d' out] [e|]]; cbn [fst] in *.
  - exact R.
  - apply IH. exact R.
Qed.

Lemma perform_invariant (s : Sensor D) (c : call) :
  P (dev s) -> P (dev (perform s c)).
Proof.
  intros Hs. destruct c as [| |fuel oss]; cbn [perform].
  - unfold ID.
    pose proof (P_read (dev s) regID (make 1) Hs) as R.
    destruct (ReadReg (dev s) regID (make 1)) as [[d' out] [e|]]; exact R.
  - unfold Temperature, readRawTemp.
    pose proof (P_control (dev s) [cmdReadTemp] Hs) as W.
    destruct (WriteReg (dev s) regControl [cmdReadTemp]) as [d1 e1].
    pose proof (P_read d1 regTempOrPressure (make 2) W) as R.
    destruct (ReadReg d1 regTempOrPressure (make 2)) as [[d2 out] [e|]];
      exact R.
  - unfold Pressure, readRawPressure.
    pose proof (P_control (dev s) [pressureCmd oss] Hs) as W.
    destruct (WriteReg (dev s) regControl [pressureCmd oss]) as [d1 [e1|]];
      [exact W|].
    pose proof (P_read d1 regControl (make 5) W) as R.
    destruct (ReadReg d1 regControl (make 5)) as [[d2 out] [e2|]];
      [exact R|].
    pose proof (poll_invariant fuel d2 (into (make 5) out) R) as Q.
    destruct (poll fuel d2 (into (make 5) out)) as [d3 [[buf [e3|]]|]];
      exact Q.
Qed.

Lemma session_invariant (cs : list call) :
  forall s : Sensor D, P (dev s) -> P (dev (session s cs)).
Proof.
  unfold session.
  induction cs as [|c cs IH]; intros s Hs; cbn [fold_left]; [exact Hs|].
  apply IH. apply perform_invariant. exact Hs.
Qed.

End DeviceInvariant.

(** The sensor touches a device only by reading registers and by writing
    to the control register: whatever property of the device those two
    keep, opening a sensor and any sequence of [ID], [Temperature] and
    [Pressure] calls keep it too. *)
Theorem sensor_keeps_device_invariant (D : Type) (I : Device D) (P : D -> Prop)
    (d : D) (cs : list call) :
  (forall d reg buf, P d -> P (fst (fst (ReadReg d reg buf)))) ->
  (forall d buf, P d -> P (fst (WriteReg d regControl buf))) ->
  P d -> P (dev (session (NewSensor d) cs)).
Proof.
  intros HR HW Hd.
  apply session_invariant; try assumption.
  apply NewSensor_invariant; assumption.
Qed.

(** Calibration and constants never change during a session. *)
Lemma session_calibration (D : Type) (I : Device D) (cs : list call) :
  forall s : Sensor D,
    calib (session s cs) = calib s /\ cnsts (session s cs) = cnsts s.
Proof.
  unfold session.
  induction cs as [|c cs IH]; intros s; cbn [fold_left]; [split; reflexivity|].
  destruct (IH (perform s c)) as [E1 E2]. rewrite E1, E2.
  destruct c as [| |fuel oss]; cbn [perform].
  - destruct (ID_kept s) as (K1 & K2 & _). split; assumption.
  - unfold Temperature.
    pose proof (readRawTemp_kept s) as (K1 & K2 & K3).
    destruct (readRawTemp s) as [s' [tu [e|]]]; cbn [fst snd] in *;
      split; assumption.
  - destruct (Pressure_kept fuel s oss) as (K1 & K2 & _). split; assumption.
Qed.

(** ** Sessions on the emulated device *)

Section EmulatedSessions.

Import Stub.

Lemma decode_int16Bytes (v : Z) :
  add16 (shl16 (at_ (int16Bytes v) 0) 8) (at_ (int16Bytes v) 1) = wrap16 v.
Proof.
  destruct (int16Bytes_u8 v) as (H0 & H1 & E).
  unfold readUint16 in E. unfold add16, shl16, wrap16, is_u8 in *.
  rewrite Z.shiftl_mul_pow2 by lia. change (2 ^ 8) with 256.
  rewrite (Z.mod_small (_ * 256)) by lia.
  rewrite E. now rewrite Z.mod_mod by lia.
Qed.

Lemma stub_temp_write (d : BMP180StubDevice)
    (w : BMP180StubDevice * option error) :
  sized d ->
  w = stubWriteReg d regControl [cmdReadTemp] ->
  let num := numMeasurements d + 1 in
  let ret := if num <? 4 then [0x69; 0xEC] else int16Bytes (ambient d num) in
  snd w = None
  /\ numMeasurements (fst w) = num
  /\ List.length (memory (fst w)) = 255%nat
  /\ (forall k, (k < 2)%nat -> at_ (memory (fst w)) (246 + k) = wrap8 (at_ ret k)).
Proof.
  intros Hd ->. cbv zeta.
  split; [reflexivity|]. split; [reflexivity|].
  set (ret := if numMeasurements d + 1 <? 4 then [0x69; 0xEC]
              else int16Bytes (ambient d (numMeasurements d + 1))).
  assert (Hret : List.length ret = 2%nat)
    by (subst ret; destruct (numMeasurements d + 1 <? 4); reflexivity).
  assert (Hret3 : (List.length ret <= 3)%nat) by (rewrite Hret; lia).
  destruct (control_write_memory (memory d) cmdReadTemp ret Hd Hret3)
    as (Hlen & _ & Hin & _).
  split; [exact Hlen|].
  intros k Hk. apply Hin.
  change (k < List.length ret)%nat. rewrite Hret. exact Hk.
Qed.

Lemma stub_temperature_value (s : Sensor BMP180StubDevice) :
  sized (dev s) ->
  let num := numMeasurements (dev s) + 1 in
  snd (readRawTemp s)
  = ((if num <? 4 then 27116 else wrap16 (ambient (dev s) num)), None).
Proof.
  intros Hd. cbv zeta. unfold readRawTemp.
  cbn [WriteReg stubDevice].
  match goal with
  | |- context [stubWriteReg ?a ?b ?c] =>
      destruct (stubWriteReg a b c) as [d1 e1] eqn:Ew
  end.
  destruct (stub_temp_write (dev s) (d1, e1) Hd (eq_sym Ew))
    as (Ee & Hnum & Hlen & Hin).
  cbn [fst snd] in Ee, Hnum, Hlen, Hin. cbv zeta in Hin.
  cbn [ReadReg stubDevice]. unfold stubReadReg. cbv beta iota zeta.
  change (Z.to_nat regTempOrPressure) with 246%nat.
  cbn [snd]. rewrite !at_read by lia.
  rewrite !Hin by lia.
  destruct (numMeasurements (dev s) + 1 <? 4); [reflexivity|].
  destruct (int16Bytes_u8 (ambient (dev s) (numMeasurements (dev s) + 1)))
    as (H0 & H1 & _).
  rewrite !(wrap8_u8 _ H0), !(wrap8_u8 _ H1).
  now rewrite decode_int16Bytes.
Qed.

(** A temperature reading on the emulated device never fails.  Its raw
    value is 27116 for the first three measurements made on the device,
    temperature or pressure, and from the fourth on the device's ambient
    value at that measurement count, as a 16-bit pattern. *)
Theorem stub_raw_temperature (s : Sensor BMP180StubDevice) :
  sized (dev s) ->
  let num := numMeasurements (dev s) + 1 in
  snd (readRawTemp s)
  = ((if num <? 4 then 27116 else wrap16 (ambient (dev s) num)), None).
Proof. exact (stub_temperature_value s). Qed.

Lemma stub_raw_temperature_witness :
  snd (readRawTemp (NewSensor bench))
  = ((if numMeasurements (dev (NewSensor bench)) + 1 <? 4 then 27116
      else wrap16 (ambient (dev (NewSensor bench))
                     (numMeasurements (dev (NewSensor bench)) + 1))), None).
Proof. apply (stub_raw_temperature (NewSensor bench)). reflexivity. Defined.

Lemma control_write_below (d : BMP180StubDevice) (buf : list byte) (i : nat) :
  (i < 244)%nat ->
  at_ (memory (fst (stubWriteReg d regControl buf))) i = at_ (memory d) i.
Proof.
  intros Hi. unfold stubWriteReg.
  change (regControl =? regControl) with true. cbv beta iota zeta.
  cbn [fst memory].
  assert (T244 : Z.to_nat regControl = 244%nat) by reflexivity.
  assert (T246 : Z.to_nat regTempOrPressure = 246%nat) by reflexivity.
  rewrite at_clearBits_other by (rewrite T244; lia).
  destruct (at_ buf 0 =? cmdReadTemp);
    [|destruct ((at_ buf 0 =? 0x34) || (at_ buf 0 =? 0x74) || (at_ buf 0 =? 0xb4));
      [|destruct (at_ buf 0 =? 0xf4)]];
    rewrite ?(at_copyAt_out _ regTempOrPressure) by (rewrite T246; lia);
    rewrite at_copyAt_out by (rewrite T244; lia); reflexivity.
Qed.

Lemma pristine_read (d : BMP180StubDevice) (reg : byte) (buf : list byte) :
  pristine d -> pristine (fst (fst (ReadReg d reg buf))).
Proof. intros Hd. exact Hd. Qed.

Lemma pristine_control (d : BMP180StubDevice) (buf : list byte) :
  pristine d -> pristine (fst (WriteReg d regControl buf)).
Proof.
  intros [Hs Hm]. split.
  - unfold sized in *. cbn [WriteReg stubDevice].
    now rewrite stubWriteReg_length.
  - intros i Hi. cbn [WriteReg stubDevice].
    rewrite control_write_below by exact Hi. now apply Hm.
Qed.

Lemma pristine_Open (clock : Z -> Z) : pristine (Open clock).
Proof. split; [reflexivity|]. intros i _. reflexivity. Qed.

(** Whatever calls a user makes on a sensor opened on the emulated device,
    and whatever the device's clock, the identity register still reads
    0x55, the sensor's calibration is that of the worked example, and
    opening the device again finds the same calibration: measurements
    never spill into the identity or calibration registers. *)
Theorem stub_session_identity (clock : Z -> Z) (cs : list call) :
  let s := session (NewSensor (Open clock)) cs in
  snd (ID s) = (0x55, None)
  /\ calib s = paper_calib
  /\ calib (NewSensor (dev s)) = paper_calib.
Proof.
  cbv zeta.
  pose proof (session_invariant pristine pristine_read pristine_control cs _
                (NewSensor_invariant pristine pristine_read (Open clock)
                   (pristine_Open clock))) as [Hs Hm].
  unfold sized in Hs.
  set (s := session (NewSensor (Open clock)) cs) in *.
  split; [|split].
  - unfold ID. cbn [ReadReg stubDevice]. unfold stubReadReg.
    cbv beta iota zeta. cbn [snd].
    change (Z.to_nat regID) with 208%nat.
    rewrite at_read by lia. rewrite Nat.add_0_r, Hm by lia. reflexivity.
  - subst s. rewrite (proj1 (session_calibration _ _ cs _)).
    reflexivity.
  - unfold NewSensor, readCalibration. cbn [dev newSensor].
    cbn [ReadReg stubDevice]. unfold stubReadReg. cbv beta iota zeta.
    cbn [calib set_cnsts set_calib].
    change (Z.to_nat regCalibration) with 170%nat.
    assert (E : into (make calibrationNumWords) (skipn 170 (memory (dev s)))
                = into (make calibrationNumWords)
                    (skipn 170 (memory (Open (fun _ => 0))))).
    { apply nth_ext with (d := 0) (d' := 0).
      - now rewrite !into_length.
      - intros i Hi. rewrite into_length in Hi.
        change (List.length (make calibrationNumWords)) with 22%nat in Hi.
        fold (at_ (into (make calibrationNumWords) (skipn 170 (memory (dev s)))) i).
        fold (at_ (into (make calibrationNumWords)
                     (skipn 170 (memory (Open (fun _ => 0))))) i).
        unfold calibrationNumWords.
        assert (Ho : List.length (memory (Open (fun _ => 0))) = 255%nat)
          by reflexivity.
        rewrite !at_read by lia.
        now rewrite Hm by lia. }
    rewrite E. reflexivity.
Qed.

(** On the emulated device no call of a session fails or is left
    polling: after any sequence of calls, [ID], [Temperature] and
    [Pressure] at any oversampling value and any polling budget return
    without error. *)
Theorem stub_session_succeeds (clock : Z -> Z) (cs : list call) (c : call) :
  succeeds (session (NewSensor (Open clock)) cs) c.
Proof.
  pose proof (session_invariant pristine pristine_read pristine_control cs _
                (NewSensor_invariant pristine pristine_read (Open clock)
                   (pristine_Open clock))) as [Hs _].
  set (s := session (NewSensor (Open clock)) cs) in *.
  destruct c as [| |fuel oss]; cbn [succeeds].
  - reflexivity.
  - unfold Temperature.
    pose proof (stub_temperature_value s Hs) as E. cbv zeta in E.
    destruct (readRawTemp s) as [s' [tu e]]. cbn [snd] in E.
    injection E as _ ->. reflexivity.
  - eexists. apply Pressure_value. apply stub_pressure_bytes. exact Hs.
Qed.

End EmulatedSessions.

(** ** The implicit-pointer read of the emulated device *)

Section ImplicitPointer.

Import Stub.

(** [Read] picks up where the last register read stopped: reading [n]
    bytes at a register and then [m] more through the pointer gives the
    same bytes as one register read of [n + m]. *)
Theorem stub_read_continues (d : BMP180StubDevice) (reg : byte) (n m : nat) :
  sized d -> 0 <= reg -> reg + Z.of_nat n + Z.of_nat m <= 255 ->
  let r1 := ReadReg d reg (make n) in
  let r2 := Read (fst (fst r1)) (make m) in
  into (make n) (snd (fst r1)) ++ into (make m) (snd (fst r2))
  = into (make (n + m)) (snd (fst (ReadReg d reg (make (n + m))))).
Proof.
  unfold sized. intros Hd Hreg Hfit. cbv zeta.
  cbn [ReadReg Read stubDevice]. unfold stubReadReg.
  cbv beta iota zeta. cbn [fst snd memory memPointer].
  assert (Lmake : forall k, List.length (make k) = k)
    by (intros k; apply repeat_length).
  rewrite Lmake, length_skipn, Hd.
  replace (wrap8 (reg + Z.of_nat (Nat.min n (255 - Z.to_nat reg))))
    with (reg + Z.of_nat n)
    by (unfold wrap8; rewrite Nat.min_l by lia; rewrite Z.mod_small; lia).
  replace (Z.to_nat (reg + Z.of_nat n)) with (Z.to_nat reg + n)%nat by lia.
  apply nth_ext with (d := 0) (d' := 0).
  - rewrite length_app, !into_length, !Lmake. reflexivity.
  - intros i Hi. rewrite length_app, !into_length, !Lmake in Hi.
    fold (at_ (into (make (n + m)) (skipn (Z.to_nat reg) (memory d))) i).
    rewrite at_read by lia.
    destruct (Nat.lt_ge_cases i n) as [Hlt|Hge].
    + rewrite app_nth1 by (rewrite into_length, Lmake; lia).
      fold (at_ (into (make n) (skipn (Z.to_nat reg) (memory d))) i).
      now rewrite at_read by lia.
    + rewrite app_nth2 by (rewrite into_length, Lmake; lia).
      rewrite into_length, Lmake.
      fold (at_ (into (make m) (skipn (Z.to_nat reg + n) (memory d))) (i - n)).
      rewrite at_read by lia. f_equal. f_equal. lia.
Qed.

Lemma stub_read_continues_witness :
  into (make 2) (snd (fst (ReadReg bench 0xAA (make 2))))
  ++ into (make 4) (snd (fst (Read (fst (fst (ReadReg bench 0xAA (make 2)))) (make 4))))
  = into (make (2 + 4)) (snd (fst (ReadReg bench 0xAA (make (2 + 4))))).
Proof.
  apply (stub_read_continues bench 0xAA 2 4).
  - reflexivity.
  - lia.
  - lia.
Defined.

End ImplicitPointer.

(** ** The two revisions of the pressure read *)

Section Revisions.

Import Stub.

(** On the emulated device the earlier pressure read, three bytes at 0xF6
    and no polling, and the current one, five bytes at 0xF4 and the polling
    loop, return the same bytes and leave the device in the same state. *)
Theorem revisions_agree_on_stub (s : Sensor BMP180StubDevice) (fuel : nat) (oss : Z) :
  sized (dev s) ->
  readRawPressure fuel s oss
  = (fst (Rev1.readRawPressure s oss), Some (snd (Rev1.readRawPressure s oss))).
Proof.
  intros Hd.
  unfold readRawPressure. unfold Rev1.readRawPressure.
  fold (pressureCmd oss).
  rewrite pressureCmd_mod4 in *.
  pose proof (Z.mod_pos_bound oss 4 ltac:(lia)) as Hr.
  set (r := oss mod 4) in *.
  cbn [WriteReg stubDevice] in *.
  match goal with
  | |- context [stubWriteReg ?a ?b ?c] =>
      destruct (stubWriteReg a b c) as [d1 e1] eqn:Ew
  end.
  destruct (stub_pressure_write (dev s) r (d1, e1) Hr Hd (eq_sym Ew))
    as (Ee & Hlen & H244 & Hin & Hout).
  cbn [fst snd] in Ee, Hlen, H244, Hin, Hout. subst e1.
  cbn [ReadReg stubDevice] in *. unfold stubReadReg in *.
  cbv beta iota zeta in *.
  change (Z.to_nat regControl) with 244%nat in *.
  change (Z.to_nat regTempOrPressure) with 246%nat.
  assert (Hsco : sco (into (make 5) (skipn 244 (memory d1))) = false).
  { unfold sco. rewrite at_read by lia. rewrite Nat.add_0_r, H244.
    now rewrite sco_bit_cleared. }
  rewrite poll_done in * by exact Hsco.
  cbn [fst snd] in *.
  assert (Lmake : forall k, List.length (make k) = k)
    by (intros k; apply repeat_length).
  match goal with
  | |- context [stubWriteReg ?a ?b ?c] =>
      replace (stubWriteReg a b c) with (d1, @None error)
        by (symmetry; exact Ew)
  end.
  cbv beta iota. cbn [fst snd].
  rewrite !Lmake, !length_skipn, Hlen.
  rewrite !at_read by lia.
  reflexivity.
Qed.

Lemma revisions_agree_on_stub_witness :
  readRawPressure 2 (NewSensor bench) 3
  = (fst (Rev1.readRawPressure (NewSensor bench) 3),
     Some (snd (Rev1.readRawPressure (NewSensor bench) 3))).
Proof. apply (revisions_agree_on_stub (NewSensor bench) 2 3). reflexivity. Defined.

End Revisions.

(** ** The first emulated device *)

(** The first emulated device serves a pressure read for every oversampling
    value a caller can pass, always with the same three bytes; it panics
    when the result registers are read before any command was written,
    when a register it does not know is read, and the sensor's five-byte
    read at the control register is such a register. *)
Theorem mock_serves_pressure (oss : Z) (d : Mock.MockDevice) :
  (exists d', Mock.WriteReg d regControl [pressureCmd oss] = Some d'
              /\ Mock.ReadReg d' regTempOrPressure (make 3)
                 = Some [0x98; 0x2F; 0xC0])
  /\ Mock.ReadReg Mock.Open regTempOrPressure (make 3) = None
  /\ Mock.ReadReg d regControl (make 5) = None.
Proof.
  split; [|split; reflexivity].
  exists (Mock.mkMock (pressureCmd oss)). split; [reflexivity|].
  rewrite pressureCmd_mod4.
  pose proof (Z.mod_pos_bound oss 4 ltac:(lia)) as Hr.
  assert (C : oss mod 4 = 0 \/ oss mod 4 = 1 \/ oss mod 4 = 2 \/ oss mod 4 = 3)
    by lia.
  destruct C as [-> | [-> | [-> | ->]]]; reflexivity.
Qed.

(** ** The statements above at concrete inputs *)

Lemma Pressure_before_Temperature_witness :
  snd (Pressure 0 (NewSensor bench) 0)
  = Some (Calc.calcPressurePascal 0 0x98 0x2F 0
            (Calc.calcConstants (calib (NewSensor bench))), None).
Proof.
  apply (Pressure_before_Temperature (D := Stub.BMP180StubDevice) 0 bench 0
           0x98 0x2F 0).
  reflexivity.
Defined.

Lemma Pressure_after_Temperature_witness :
  snd (Pressure 0 (fst (Temperature (NewSensor bench))) 3)
  = Some (Calc.calcPressurePascal
            (match snd (snd (Temperature (NewSensor bench))) with
             | None => fst (snd (Temperature (NewSensor bench)))
             | Some _ => tempCelsius (NewSensor bench)
             end) 0x98 0x2F 0xC0 (cnsts (NewSensor bench)), None).
Proof.
  apply (Pressure_after_Temperature (D := Stub.BMP180StubDevice) 0
           (NewSensor bench) 3 0x98 0x2F 0xC0).
  reflexivity.
Defined.

Lemma sensor_keeps_device_invariant_witness :
  pristine (dev (session (NewSensor bench) [CallTemperature; CallPressure 0 3])).
Proof.
  apply (sensor_keeps_device_invariant Stub.BMP180StubDevice Stub.stubDevice
           pristine bench [CallTemperature; CallPressure 0 3]).
  - exact pristine_read.
  - exact pristine_control.
  - exact (pristine_Open (fun _ => 27116)).
Defined.

(** ** How the polling loop ends *)

(** When the loop of [readRawPressure] ends, it is because a block read
    failed or because the last buffer shows bit 0x20 clear. *)
Lemma poll_ends_only (D : Type) (I : Device D) (fuel : nat) :
  forall (d : D) (buf buf' : list byte) (err : option error),
    snd (poll fuel d buf) = Some (buf', err) ->
    err <> None \/ sco buf' = false.
Proof.
  induction fuel as [|fuel IH]; intros d buf buf' err; rewrite poll_unfold;
    destruct (sco buf) eqn:Hb; cbn [snd].
  - discriminate.
  - intros E. injection E as <- <-. right. exact Hb.
  - destruct (ReadReg d regControl buf) as [[d' out] [e|]]; cbn [snd].
    + intros E. injection E as <- <-. left. discriminate.
    + apply IH.
  - intros E. injection E as <- <-. right. exact Hb.
Qed.
